(** * XLA platform info: visible-device parsing, device-compiler
    construction and allocator selection

    A shallow embedding of [tensorflow/compiler/jit/xla_platform_info.cc]
    and the properties of its four entry points:
    [ParseVisibleDeviceList], [BuildXlaDeviceCompiler],
    [XlaPlatformInfoFromDevice] and [GetAllocator].

    Conventions.
    - A C++ pointer that may be null is an [option]; [None] is [nullptr].
    - [StatusOr<T>] is a value or a non-OK status; extracting [value()]
      from a non-OK [StatusOr] terminates the process.
    - Calls to the external collaborators (platform manager, compiler
      registry, client library, op registry, the device's allocator
      accessor) are answered by an environment record and logged, in
      order, in the call state. *)

From Stdlib Require Import ZArith String Ascii List Lia.
From stdpp Require Import base option list gmap sets strings.

Local Open Scope Z_scope.

(** ** Status and StatusOr *)

Module error.

(** The non-OK canonical codes of [error::Code]. *)
Inductive Code :=
| CANCELLED | UNKNOWN | INVALID_ARGUMENT | DEADLINE_EXCEEDED | NOT_FOUND
| ALREADY_EXISTS | PERMISSION_DENIED | RESOURCE_EXHAUSTED
| FAILED_PRECONDITION | ABORTED | OUT_OF_RANGE | UNIMPLEMENTED | INTERNAL
| UNAVAILABLE | DATA_LOSS | UNAUTHENTICATED.

#[global] Instance Code_eq_dec : EqDecision Code.
Proof. solve_decision. Defined.

Definition Code_name (c : Code) : string :=
  match c with
  | CANCELLED => "CANCELLED" | UNKNOWN => "UNKNOWN"
  | INVALID_ARGUMENT => "INVALID_ARGUMENT"
  | DEADLINE_EXCEEDED => "DEADLINE_EXCEEDED" | NOT_FOUND => "NOT_FOUND"
  | ALREADY_EXISTS => "ALREADY_EXISTS"
  | PERMISSION_DENIED => "PERMISSION_DENIED"
  | RESOURCE_EXHAUSTED => "RESOURCE_EXHAUSTED"
  | FAILED_PRECONDITION => "FAILED_PRECONDITION" | ABORTED => "ABORTED"
  | OUT_OF_RANGE => "OUT_OF_RANGE" | UNIMPLEMENTED => "UNIMPLEMENTED"
  | INTERNAL => "INTERNAL" | UNAVAILABLE => "UNAVAILABLE"
  | DATA_LOSS => "DATA_LOSS" | UNAUTHENTICATED => "UNAUTHENTICATED"
  end.

End error.

(** A [Status] is OK, or an error code with its message. *)
Inductive Status :=
| OkStatus
| ErrorStatus (code : error.Code) (message : string).

#[global] Instance Status_eq_dec : EqDecision Status.
Proof. solve_decision. Defined.

(** [Status::ToString]: the code's name, a colon, the message. *)
Definition ToString (s : Status) : string :=
  match s with
  | OkStatus => "OK"
  | ErrorStatus c m => error.Code_name c +:+ ": " +:+ m
  end.

(** [StatusOr<T>]: a value, or a status that is never OK. *)
Inductive StatusOr (T : Type) :=
| StatusOrValue (v : T)
| StatusOrError (code : error.Code) (message : string).
Arguments StatusOrValue {T} v.
Arguments StatusOrError {T} code message.

Definition ok {T} (r : StatusOr T) : bool :=
  match r with StatusOrValue _ => true | StatusOrError _ _ => false end.

Definition status {T} (r : StatusOr T) : Status :=
  match r with
  | StatusOrValue _ => OkStatus
  | StatusOrError c m => ErrorStatus c m
  end.

(** [StrCat] of the pieces handed to an [errors::] constructor. *)
Definition StrCat (pieces : list string) : string :=
  foldr String.append "" pieces.

Module errors.
Definition InvalidArgument (pieces : list string) : Status :=
  ErrorStatus error.INVALID_ARGUMENT (StrCat pieces).
Definition Unimplemented (pieces : list string) : Status :=
  ErrorStatus error.UNIMPLEMENTED (StrCat pieces).
End errors.

(** A function that returns [StatusOr<T>] and leaves with a [Status]. *)
Definition of_status {T} (s : Status) : StatusOr T :=
  match s with
  | OkStatus => StatusOrError error.INTERNAL
      "An OK status is not a valid constructor argument to StatusOr<T>"
  | ErrorStatus c m => StatusOrError c m
  end.

(** [sub] occurs in [s]. *)
Definition Contains (sub s : string) : Prop :=
  ∃ before after, s = before +:+ sub +:+ after.

(** ** absl::StrSplit and absl::SimpleAtoi *)

(** [absl::StrSplit(text, ',')] into a vector of strings: every comma
    ends a piece, and the empty text gives one empty piece. *)
Fixpoint StrSplit (text : string) : list string :=
  match text with
  | EmptyString => [EmptyString]
  | String c rest =>
      if Ascii.eqb c "," then EmptyString :: StrSplit rest
      else match StrSplit rest with
           | piece :: pieces => String c piece :: pieces
           | [] => [String c EmptyString]
           end
  end.

Definition ascii_isspace (c : ascii) : bool :=
  let n := nat_of_ascii c in
  (Nat.eqb n 32 || (Nat.leb 9 n && Nat.leb n 13))%bool.

(** The digit table of the integer parser: decimal digits, then letters
    as digits ten and above, and 36 for any other character. *)
Definition kAsciiToInt (c : ascii) : Z :=
  let n := Z.of_nat (nat_of_ascii c) in
  if ((48 <=? n) && (n <=? 57))%bool then n - 48
  else if ((97 <=? n) && (n <=? 122))%bool then n - 97 + 10
  else if ((65 <=? n) && (n <=? 90))%bool then n - 65 + 10
  else 36.

Definition kint32max : Z := 2147483647.
Definition kint32min : Z := -2147483648.

Section safe_strto32.
Variable base : Z.

Fixpoint safe_parse_positive_int (text : list ascii) (value : Z)
  : option Z :=
  match text with
  | [] => Some value
  | c :: rest =>
      let digit := kAsciiToInt c in
      if base <=? digit then None
      else if Z.quot kint32max base <? value then None
      else
        let value := value * base in
        if kint32max - digit <? value then None
        else safe_parse_positive_int rest (value + digit)
  end.

Fixpoint safe_parse_negative_int (text : list ascii) (value : Z)
  : option Z :=
  match text with
  | [] => Some value
  | c :: rest =>
      let digit := kAsciiToInt c in
      if base <=? digit then None
      else if value <? Z.quot kint32min base then None
      else
        let value := value * base in
        if value <? kint32min + digit then None
        else safe_parse_negative_int rest (value - digit)
  end.
End safe_strto32.

Fixpoint dropwhile_space (text : list ascii) : list ascii :=
  match text with
  | c :: rest => if ascii_isspace c then dropwhile_space rest else text
  | [] => []
  end.

(** Leading and trailing white space goes, then one sign; nothing left
    at either point is a failure. *)
Definition safe_parse_sign (text : list ascii) : option (bool * list ascii) :=
  let text := dropwhile_space text in
  let text := rev (dropwhile_space (rev text)) in
  match text with
  | [] => None
  | c :: rest =>
      if Ascii.eqb c "-" then
        match rest with [] => None | _ => Some (true, rest) end
      else if Ascii.eqb c "+" then
        match rest with [] => None | _ => Some (false, rest) end
      else Some (false, text)
  end.

(** [absl::SimpleAtoi] at [int32_t]: [Some] of the parsed value when the
    whole text is a decimal integer that fits, [None] when it returns
    false. *)
Definition SimpleAtoi (str : string) : option Z :=
  match safe_parse_sign (list_ascii_of_string str) with
  | None => None
  | Some (negative, text) =>
      if negative then safe_parse_negative_int 10 text 0
      else safe_parse_positive_int 10 text 0
  end.

(** ** ParseVisibleDeviceList *)

(** The [for] loop over the pieces, with the set built so far: the first
    piece that is no integer ends the function with [InvalidArgument]. *)
Fixpoint ParseVisibleDeviceList_loop (visible_device_list : string)
    (visible_devices : list string) (gpu_ids : gset Z)
  : StatusOr (option (gset Z)) :=
  match visible_devices with
  | [] => StatusOrValue (Some gpu_ids)
  | platform_device_id_str :: rest =>
      match SimpleAtoi platform_device_id_str with
      | None =>
          of_status (errors.InvalidArgument
            ["Could not parse entry in 'visible_device_list': '";
             platform_device_id_str;
             "'. visible_device_list = "; visible_device_list])
      | Some platform_device_id =>
          ParseVisibleDeviceList_loop visible_device_list rest
            ({[platform_device_id]} ∪ gpu_ids)
      end
  end.

Definition ParseVisibleDeviceList (visible_device_list : string)
  : StatusOr (option (gset Z)) :=
  let gpu_ids : gset Z := ∅ in
  if String.eqb visible_device_list "" then StatusOrValue None
  else
    let visible_devices := StrSplit visible_device_list in
    ParseVisibleDeviceList_loop visible_device_list visible_devices gpu_ids.

(** ** Data model *)

(** [DeviceType]: a wrapper of the type string; equality compares the
    strings. *)
Record DeviceType := mkDeviceType { type : string }.

#[global] Instance DeviceType_eq_dec : EqDecision DeviceType.
Proof. solve_decision. Defined.

(** Device-type names of [types.h] and [tpu_defs.h]. *)
Definition DEVICE_CPU : string := "CPU".
Definition DEVICE_GPU : string := "GPU".
Definition DEVICE_TPU : string := "TPU".
Definition DEVICE_TPU_XLA_JIT : string := "XLA_TPU_JIT".

(** The stream-executor name space. *)
Module se.
(** [Platform::Id] is an address; [None] is the null id. *)
Definition PlatformId : Type := option nat.

Record Platform := { id : PlatformId; Name : string }.
Record StreamExecutor := { platform : Platform }.
Record Stream := { handle : nat; parent : StreamExecutor }.

(** The generic allocator a device hands out. *)
Definition Allocator : Type := nat.

(** The allocators this file returns: one owned by an XLA backend, or
    the adapter around a device allocator, built on a platform or on a
    stream. *)
Inductive DeviceMemoryAllocator :=
| BackendAllocator (owner : nat)
| TfAllocatorAdapter (wrapped : option Allocator)
    (on : Platform + Stream).
End se.

Module xla.
Definition LocalClient : Type := nat.
Definition Compiler : Type := nat.

Record LocalClientOptions := {
  platform : option se.Platform;
  number_of_replicas : Z;
  intra_op_parallelism_threads : Z;
  allowed_devices : option (gset Z)
}.

(** The default-constructed options. *)
Definition LocalClientOptions_default : LocalClientOptions :=
  {| platform := None; number_of_replicas := 1;
     intra_op_parallelism_threads := -1; allowed_devices := None |}.

Definition set_platform (p : se.Platform) (o : LocalClientOptions) :=
  {| platform := Some p; number_of_replicas := number_of_replicas o;
     intra_op_parallelism_threads := intra_op_parallelism_threads o;
     allowed_devices := allowed_devices o |}.
Definition set_intra_op_parallelism_threads (n : Z)
    (o : LocalClientOptions) :=
  {| platform := platform o; number_of_replicas := number_of_replicas o;
     intra_op_parallelism_threads := n;
     allowed_devices := allowed_devices o |}.
Definition set_allowed_devices (a : option (gset Z))
    (o : LocalClientOptions) :=
  {| platform := platform o; number_of_replicas := number_of_replicas o;
     intra_op_parallelism_threads := intra_op_parallelism_threads o;
     allowed_devices := a |}.
End xla.

Module XlaDevice.
(** [XlaDevice::Metadata], as far as this file reads it. *)
Record Metadata := {
  jit_device_type : DeviceType;
  client : option xla.LocalClient;
  platform : option se.Platform
}.
End XlaDevice.

Module XlaOpRegistry.
Record DeviceRegistration := { compilation_device_name : string }.
End XlaOpRegistry.

Record XlaPlatformInfo := {
  device_type : DeviceType;
  platform_id : se.PlatformId;
  xla_device_metadata : option XlaDevice.Metadata;
  custom_allocator : option se.DeviceMemoryAllocator
}.

Record CpuWorkerThreads := { num_threads : Z }.
Record AcceleratorDeviceInfo := { stream : option se.Stream }.

Module Device.
(** A device, as far as this file reads it; [allocator] is what
    [GetAllocator({})] of the device returns. *)
Record Device := {
  device_type : string;
  tensorflow_cpu_worker_threads : option CpuWorkerThreads;
  tensorflow_accelerator_device_info : option AcceleratorDeviceInfo;
  allocator : option se.Allocator
}.
End Device.
Abbreviation DeviceBase := Device.Device.

Record GPUOptions := { visible_device_list : string }.
Record ConfigProto := { gpu_options : GPUOptions }.
Record FunctionLibraryRuntime := { config_proto : option ConfigProto }.

Record MarkForCompilationPassFlags := {
  tf_xla_persistent_cache_directory : string;
  tf_xla_disable_strict_signature_checks : bool;
  tf_xla_persistent_cache_prefix : string
}.

Module XlaDeviceExecutablePersistor.
Record Config := {
  persistent_cache_directory : string;
  disable_strict_signature_checks : bool;
  persistence_prefix : string
}.
Record Persistor := { config : Config; device_type : DeviceType }.
End XlaDeviceExecutablePersistor.

Record XlaDeviceCompilerClient := { client : option xla.LocalClient }.

Record XlaDeviceCompiler := {
  persistor : XlaDeviceExecutablePersistor.Persistor;
  compiler_client : XlaDeviceCompilerClient
}.

Definition CreateXlaDeviceCompiler
    (persistor_config : XlaDeviceExecutablePersistor.Config)
    (device_type : DeviceType) (local_client : option xla.LocalClient)
  : XlaDeviceCompiler :=
  let persistor :=
    {| XlaDeviceExecutablePersistor.config := persistor_config;
       XlaDeviceExecutablePersistor.device_type := device_type |} in
  let compiler_client := {| client := local_client |} in
  {| persistor := persistor; compiler_client := compiler_client |}.

Definition GetAllowedGpus (flr : FunctionLibraryRuntime)
  : StatusOr (option (gset Z)) :=
  let gpu_ids : option (gset Z) := None in
  match config_proto flr with
  | Some config =>
      let allowed_gpus := visible_device_list (gpu_options config) in
      match ParseVisibleDeviceList allowed_gpus with
      | StatusOrError c m => StatusOrError c m
      | StatusOrValue gpu_ids => StatusOrValue gpu_ids
      end
  | None => StatusOrValue gpu_ids
  end.

(** ** Calls, their log, and runs that end early *)

(** A call to a collaborator outside this file. *)
Inductive Event :=
| CallPlatformWithId (id : se.PlatformId)
| CallGetForPlatform (platform : se.Platform)
| CallGetOrCreateLocalClient (client_options : xla.LocalClientOptions)
| CallGetCompilationDevice (device_type : string)
| CallGetMetadataFromDevice (device : DeviceBase)
| CallDeviceGetAllocator (device : DeviceBase).

(** What the collaborators answer, and the process-wide constants. *)
Record Env := {
  GetMarkForCompilationPassFlags : MarkForCompilationPassFlags;
  kHostPlatformId : se.PlatformId;
  PlatformWithId : se.PlatformId → StatusOr se.Platform;
  GetForPlatform : se.Platform → StatusOr xla.Compiler;
  GetOrCreateLocalClient :
    xla.LocalClientOptions → StatusOr xla.LocalClient;
  GetCompilationDevice :
    string → option XlaOpRegistry.DeviceRegistration;
  GetMetadataFromDevice : DeviceBase → StatusOr XlaDevice.Metadata;
  shared_memory_allocator :
    xla.LocalClient → option se.DeviceMemoryAllocator
}.

(** The memory a run touches: the pointer behind the out-parameter
    [xla_device_compiler], and the log of calls made so far. *)
Record Mem := {
  xla_device_compiler : option XlaDeviceCompiler;
  calls : list Event
}.

(** A run returns, or the process ends in it. *)
Inductive Outcome (A : Type) :=
| Returned (a : A)
| Crashed.
Arguments Returned {A} a.
Arguments Crashed {A}.

Definition Run (A : Type) : Type := Mem → Outcome A * Mem.

#[global] Instance Run_ret : MRet Run := λ A a m, (Returned a, m).
#[global] Instance Run_bind : MBind Run := λ A B k r m,
  match r m with
  | (Returned a, m') => k a m'
  | (Crashed, m') => (Crashed, m')
  end.

(** A logged call with its answer. *)
Definition call {A} (e : Event) (answer : A) : Run A :=
  λ m, (Returned answer,
        {| xla_device_compiler := xla_device_compiler m;
           calls := calls m ++ [e] |}).

(** [*xla_device_compiler = c]. *)
Definition store (c : XlaDeviceCompiler) : Run unit :=
  λ m, (Returned (),
        {| xla_device_compiler := Some c; calls := calls m |}).

(** [StatusOr::value()]: the value, or the end of the process. *)
Definition value {T} (r : StatusOr T) : Run T :=
  match r with
  | StatusOrValue v => mret v
  | StatusOrError _ _ => λ m, (Crashed, m)
  end.

(** [p->] on a pointer the source does not test: a null pointer ends
    the run. *)
Definition deref {T} (p : option T) : Run T :=
  match p with
  | Some v => mret v
  | None => λ m, (Crashed, m)
  end.

(** [status.code()]; [None] stands for [error::OK]. *)
Definition code (s : Status) : option error.Code :=
  match s with
  | OkStatus => None
  | ErrorStatus c _ => Some c
  end.

(** [status.error_message()]. *)
Definition error_message (s : Status) : string :=
  match s with
  | OkStatus => ""
  | ErrorStatus _ m => m
  end.

(** ** BuildXlaDeviceCompiler *)

Section with_env.
Variable env : Env.

(** The rest of [BuildXlaDeviceCompiler] once the platform is resolved
    and the compiler lookup is behind: the client options, the allowed
    GPUs, the client, the registered compilation device, the compiler. *)
Definition BuildXlaDeviceCompiler_on_platform
    (device : DeviceBase) (flr : FunctionLibraryRuntime)
    (platform_info : XlaPlatformInfo)
    (persistor_config : XlaDeviceExecutablePersistor.Config)
    (platform : se.Platform) : Run Status :=
  let client_options := xla.LocalClientOptions_default in
  let client_options := xla.set_platform platform client_options in
  threads ← deref (Device.tensorflow_cpu_worker_threads device);
  let client_options :=
    xla.set_intra_op_parallelism_threads (num_threads threads)
      client_options in
  match GetAllowedGpus flr with
  | StatusOrError c m => mret (ErrorStatus c m)
  | StatusOrValue allowed_gpus =>
      let client_options :=
        xla.set_allowed_devices allowed_gpus client_options in
      client ← call (CallGetOrCreateLocalClient client_options)
                    (GetOrCreateLocalClient env client_options);
      if negb (ok client) then mret (status client)
      else
        let device_type_string := type (device_type platform_info) in
        registration ← call (CallGetCompilationDevice device_type_string)
                            (GetCompilationDevice env device_type_string);
        match registration with
        | None =>
            mret (errors.InvalidArgument
                    ["No JIT device registered for "; device_type_string])
        | Some registration =>
            local_client ← value client;
            store (CreateXlaDeviceCompiler persistor_config
                     (mkDeviceType
                        (XlaOpRegistry.compilation_device_name registration))
                     (Some local_client));;
            mret OkStatus
        end
  end.

Definition BuildXlaDeviceCompiler
    (device : DeviceBase) (flr : FunctionLibraryRuntime)
    (platform_info : XlaPlatformInfo) : Run Status :=
  let flags := GetMarkForCompilationPassFlags env in
  let persistor_config :=
    {| XlaDeviceExecutablePersistor.persistent_cache_directory :=
         tf_xla_persistent_cache_directory flags;
       XlaDeviceExecutablePersistor.disable_strict_signature_checks :=
         tf_xla_disable_strict_signature_checks flags;
       XlaDeviceExecutablePersistor.persistence_prefix :=
         tf_xla_persistent_cache_prefix flags |} in
  match xla_device_metadata platform_info with
  | Some metadata =>
      store (CreateXlaDeviceCompiler persistor_config
               (XlaDevice.jit_device_type metadata)
               (XlaDevice.client metadata));;
      mret OkStatus
  | None =>
      if decide (device_type platform_info = mkDeviceType DEVICE_TPU) then
        store (CreateXlaDeviceCompiler persistor_config
                 (mkDeviceType DEVICE_TPU_XLA_JIT) None);;
        mret OkStatus
      else
        platform ← call (CallPlatformWithId (platform_id platform_info))
                        (PlatformWithId env (platform_id platform_info));
        if negb (ok platform) then mret (status platform)
        else
          platform ← value platform;
          compiler_for_platform ←
            call (CallGetForPlatform platform) (GetForPlatform env platform);
          let rest :=
            BuildXlaDeviceCompiler_on_platform device flr platform_info
              persistor_config platform in
          if negb (ok compiler_for_platform) then
            let status := status compiler_for_platform in
            if decide (code status = Some error.NOT_FOUND) then
              mret (errors.Unimplemented
                      ["Could not find compiler for platform ";
                       se.Name platform; ": "; ToString status])
            else rest
          else rest
  end.

(** ** XlaPlatformInfoFromDevice *)

Definition XlaPlatformInfoFromDevice (device : DeviceBase)
  : Run XlaPlatformInfo :=
  let device_type_string := Device.device_type device in
  if decide (device_type_string = DEVICE_CPU) then
    mret {| device_type := mkDeviceType device_type_string;
            platform_id := kHostPlatformId env;
            xla_device_metadata := None; custom_allocator := None |}
  else if decide (device_type_string = DEVICE_GPU) then
    info ← deref (Device.tensorflow_accelerator_device_info device);
    stream ← deref (stream info);
    mret {| device_type := mkDeviceType device_type_string;
            platform_id := se.id (se.platform (se.parent stream));
            xla_device_metadata := None; custom_allocator := None |}
  else
    found ← call (CallGetMetadataFromDevice device)
                 (GetMetadataFromDevice env device);
    match found with
    | StatusOrValue metadata =>
        platform ← deref (XlaDevice.platform metadata);
        client ← deref (XlaDevice.client metadata);
        mret {| device_type := mkDeviceType device_type_string;
                platform_id := se.id platform;
                xla_device_metadata := Some metadata;
                custom_allocator := shared_memory_allocator env client |}
    | StatusOrError _ _ =>
        mret {| device_type := mkDeviceType device_type_string;
                platform_id := None;
                xla_device_metadata := None; custom_allocator := None |}
    end.

(** ** GetAllocator *)

Definition GetAllocator (device : DeviceBase) (stream : option se.Stream)
    (platform_info : XlaPlatformInfo) : Run se.DeviceMemoryAllocator :=
  match custom_allocator platform_info with
  | Some allocator => mret allocator
  | None =>
      alloc ← call (CallDeviceGetAllocator device) (Device.allocator device);
      match stream with
      | None =>
          found ← call (CallPlatformWithId (platform_id platform_info))
                       (PlatformWithId env (platform_id platform_info));
          platform ← value found;
          mret (se.TfAllocatorAdapter alloc (inl platform))
      | Some stream => mret (se.TfAllocatorAdapter alloc (inr stream))
      end
  end.

End with_env.

(** The configuration built from the flags, as the first statement of
    [BuildXlaDeviceCompiler] builds it. *)
Definition persistor_config_of (env : Env)
  : XlaDeviceExecutablePersistor.Config :=
  let flags := GetMarkForCompilationPassFlags env in
  {| XlaDeviceExecutablePersistor.persistent_cache_directory :=
       tf_xla_persistent_cache_directory flags;
     XlaDeviceExecutablePersistor.disable_strict_signature_checks :=
       tf_xla_disable_strict_signature_checks flags;
     XlaDeviceExecutablePersistor.persistence_prefix :=
       tf_xla_persistent_cache_prefix flags |}.

(** The client options of [BuildXlaDeviceCompiler] for a platform, a
    thread count and a set of allowed devices. *)
Definition client_options_of (platform : se.Platform) (threads : Z)
    (allowed_gpus : option (gset Z)) : xla.LocalClientOptions :=
  xla.set_allowed_devices allowed_gpus
    (xla.set_intra_op_parallelism_threads threads
       (xla.set_platform platform xla.LocalClientOptions_default)).

(** [log m es]: the memory [m] after the calls [es]. *)
Definition log (m : Mem) (es : list Event) : Mem :=
  {| xla_device_compiler := xla_device_compiler m;
     calls := calls m ++ es |}.

(** ** A process to run the code in

    Three platforms: the host, with a compiler; CUDA, with no compiler
    linked in; ROCM, whose compiler lookup fails for another reason.
    The op registry knows the device types CPU and GPU. No device is an
    XLA device. *)
Module Sample.

Definition host : se.Platform := {| se.id := Some 1%nat; se.Name := "Host" |}.
Definition cuda : se.Platform := {| se.id := Some 2%nat; se.Name := "CUDA" |}.
Definition rocm : se.Platform := {| se.id := Some 3%nat; se.Name := "ROCM" |}.

Definition env : Env := {|
  GetMarkForCompilationPassFlags :=
    {| tf_xla_persistent_cache_directory := "/tmp/xla";
       tf_xla_disable_strict_signature_checks := false;
       tf_xla_persistent_cache_prefix := "xla_compile_cache" |};
  kHostPlatformId := Some 1%nat;
  PlatformWithId := λ id,
    match id with
    | Some 1%nat => StatusOrValue host
    | Some 2%nat => StatusOrValue cuda
    | Some 3%nat => StatusOrValue rocm
    | _ => StatusOrError error.NOT_FOUND
             "could not find registered platform with id"
    end;
  GetForPlatform := λ platform,
    if String.eqb (se.Name platform) "Host" then StatusOrValue 1%nat
    else if String.eqb (se.Name platform) "CUDA" then
      StatusOrError error.NOT_FOUND
        "could not find registered compiler for platform CUDA"
    else StatusOrError error.INTERNAL "compiler factory failed";
  GetOrCreateLocalClient := λ client_options,
    match xla.platform client_options with
    | Some platform => StatusOrValue (default 0%nat (se.id platform))
    | None => StatusOrError error.INVALID_ARGUMENT "no platform"
    end;
  GetCompilationDevice := λ device_type,
    if String.eqb device_type "CPU" then
      Some {| XlaOpRegistry.compilation_device_name := "XLA_CPU_JIT" |}
    else if String.eqb device_type "GPU" then
      Some {| XlaOpRegistry.compilation_device_name := "XLA_GPU_JIT" |}
    else None;
  GetMetadataFromDevice := λ _,
    StatusOrError error.INTERNAL
      "Cannot get XLA metadata from non-XLA device";
  shared_memory_allocator := λ client, Some (se.BackendAllocator client)
|}.

Definition device (device_type : string) : DeviceBase :=
  {| Device.device_type := device_type;
     Device.tensorflow_cpu_worker_threads := Some {| num_threads := 8 |};
     Device.tensorflow_accelerator_device_info := None;
     Device.allocator := Some 5%nat |}.

Definition flr (visible : string) : FunctionLibraryRuntime :=
  {| config_proto :=
       Some {| gpu_options := {| visible_device_list := visible |} |} |}.

Definition info (device_type : string) (platform_id : se.PlatformId)
  : XlaPlatformInfo :=
  {| device_type := mkDeviceType device_type; platform_id := platform_id;
     xla_device_metadata := None; custom_allocator := None |}.

Definition metadata : XlaDevice.Metadata :=
  {| XlaDevice.jit_device_type := mkDeviceType "XLA_CPU_JIT";
     XlaDevice.client := Some 9%nat;
     XlaDevice.platform := Some host |}.

Definition stream : se.Stream :=
  {| se.handle := 4%nat; se.parent := {| se.platform := cuda |} |}.

Definition xla_info : XlaPlatformInfo :=
  {| device_type := mkDeviceType "XLA_CPU"; platform_id := Some 1%nat;
     xla_device_metadata := Some metadata;
     custom_allocator := Some (se.BackendAllocator 9%nat) |}.

Definition start : Mem := {| xla_device_compiler := None; calls := [] |}.

End Sample.

(** ** A second process

    Every platform has a compiler, the client library has no client for
    CUDA, and a device of type XLA_CPU is an XLA device with the
    metadata of the first process. *)
Module Sample2.

Definition env : Env := {|
  GetMarkForCompilationPassFlags := GetMarkForCompilationPassFlags Sample.env;
  kHostPlatformId := kHostPlatformId Sample.env;
  PlatformWithId := PlatformWithId Sample.env;
  GetForPlatform := λ _, StatusOrValue 1%nat;
  GetOrCreateLocalClient := λ client_options,
    match xla.platform client_options with
    | Some platform =>
        if String.eqb (se.Name platform) "CUDA" then
          StatusOrError error.INTERNAL "no supported devices found"
        else StatusOrValue (default 0%nat (se.id platform))
    | None => StatusOrError error.INVALID_ARGUMENT "no platform"
    end;
  GetCompilationDevice := GetCompilationDevice Sample.env;
  GetMetadataFromDevice := λ device,
    if String.eqb (Device.device_type device) "XLA_CPU" then
      StatusOrValue Sample.metadata
    else StatusOrError error.INTERNAL
           "Cannot get XLA metadata from non-XLA device";
  shared_memory_allocator := shared_memory_allocator Sample.env
|}.

(** A GPU device on a stream. *)
Definition gpu_device : DeviceBase :=
  {| Device.device_type := "GPU";
     Device.tensorflow_cpu_worker_threads := Some {| num_threads := 8 |};
     Device.tensorflow_accelerator_device_info :=
       Some {| stream := Some Sample.stream |};
     Device.allocator := Some 5%nat |}.

End Sample2.

(** * Properties *)

(** ** The integer parser stays within [int32_t] *)

Lemma kAsciiToInt_nonneg (c : ascii) : 0 ≤ kAsciiToInt c.
Proof.
  unfold kAsciiToInt.
  repeat match goal with
         | |- context [if ?b then _ else _] => destruct b eqn:?
         end; try lia;
    repeat match goal with
           | H : (_ && _)%bool = true |- _ =>
               apply andb_true_iff in H; destruct H
           | H : (_ <=? _) = true |- _ => apply Z.leb_le in H
           end; lia.
Qed.

Lemma safe_parse_positive_int_range (text : list ascii) (value n : Z) :
  0 ≤ value ≤ kint32max →
  safe_parse_positive_int 10 text value = Some n →
  0 ≤ n ≤ kint32max.
Proof.
  revert value. induction text as [|c rest IH]; intros value Hv; simpl.
  - intros [= <-]. exact Hv.
  - pose proof (kAsciiToInt_nonneg c).
    repeat case_match; try discriminate.
    apply IH. unfold kint32max in *. lia.
Qed.

Lemma safe_parse_negative_int_range (text : list ascii) (value n : Z) :
  kint32min ≤ value ≤ 0 →
  safe_parse_negative_int 10 text value = Some n →
  kint32min ≤ n ≤ 0.
Proof.
  revert value. induction text as [|c rest IH]; intros value Hv; simpl.
  - intros [= <-]. exact Hv.
  - pose proof (kAsciiToInt_nonneg c).
    repeat case_match; try discriminate.
    apply IH. unfold kint32min in *. lia.
Qed.

Lemma SimpleAtoi_int32 (str : string) (n : Z) :
  SimpleAtoi str = Some n → kint32min ≤ n ≤ kint32max.
Proof.
  unfold SimpleAtoi.
  destruct (safe_parse_sign _) as [[[] text]|]; [| |discriminate]; intros H.
  - apply safe_parse_negative_int_range in H;
      unfold kint32min, kint32max in *; lia.
  - apply safe_parse_positive_int_range in H;
      unfold kint32min, kint32max in *; lia.
Qed.

(** ** The loop of ParseVisibleDeviceList *)

Lemma ParseVisibleDeviceList_loop_ok (text : string)
    (pieces : list string) (gpu_ids : gset Z) :
  Forall (λ piece, is_Some (SimpleAtoi piece)) pieces →
  ParseVisibleDeviceList_loop text pieces gpu_ids
  = StatusOrValue (Some (list_to_set (omap SimpleAtoi pieces) ∪ gpu_ids)).
Proof.
  intros Hall. revert gpu_ids.
  induction Hall as [|piece rest [n Hn] _ IH]; intros gpu_ids; simpl.
  - by rewrite (left_id_L ∅ (∪)).
  - rewrite Hn, IH. do 2 f_equal.
    rewrite (assoc_L (∪)). f_equal. apply (comm_L (∪)).
Qed.

Lemma ParseVisibleDeviceList_loop_bad (text : string)
    (before : list string) (token : string) (after : list string)
    (gpu_ids : gset Z) :
  Forall (λ piece, is_Some (SimpleAtoi piece)) before →
  SimpleAtoi token = None →
  status (ParseVisibleDeviceList_loop text (before ++ token :: after) gpu_ids)
  = errors.InvalidArgument
      ["Could not parse entry in 'visible_device_list': '"; token;
       "'. visible_device_list = "; text].
Proof.
  intros Hall Hbad. revert gpu_ids.
  induction Hall as [|piece rest [n Hn] _ IH]; intros gpu_ids; simpl.
  - rewrite Hbad. reflexivity.
  - rewrite Hn. apply IH.
Qed.

(** The first piece that is no integer splits the pieces in two. *)
Lemma first_bad_piece (pieces : list string) :
  Exists (λ piece, SimpleAtoi piece = None) pieces →
  ∃ before token after,
    pieces = (before ++ token :: after)%list
    ∧ Forall (λ piece, is_Some (SimpleAtoi piece)) before
    ∧ SimpleAtoi token = None.
Proof.
  induction pieces as [|piece rest IH]; intros Hex.
  - inversion Hex.
  - destruct (SimpleAtoi piece) as [n|] eqn:Hpiece.
    + inversion Hex as [? ? Hhd|? ? Htl]; subst; [congruence|].
      destruct (IH Htl) as (before & token & after & -> & Hall & Hbad).
      exists (piece :: before), token, after. split; [reflexivity|].
      split; [|exact Hbad]. constructor; [by eexists|exact Hall].
    + exists [], piece, rest. split; [reflexivity|]. split; [constructor|done].
Qed.

(** ** Pieces of a message *)

Lemma append_assoc (a b c : string) : (a +:+ b) +:+ c = a +:+ b +:+ c.
Proof.
  induction a as [|x a IH]; [reflexivity|].
  change (String x ((a +:+ b) +:+ c) = String x (a +:+ b +:+ c)).
  by rewrite IH.
Qed.

Lemma Contains_here (sub after : string) : Contains sub (sub +:+ after).
Proof. by exists "", after. Qed.

Lemma Contains_later (sub first s : string) :
  Contains sub s → Contains sub (first +:+ s).
Proof.
  intros (before & after & ->). exists (first +:+ before), after.
  by rewrite append_assoc.
Qed.

Lemma Contains_StrCat (piece : string) (pieces : list string) :
  piece ∈ pieces → Contains piece (StrCat pieces).
Proof.
  induction 1 as [piece rest|piece other rest _ IH]; unfold StrCat; simpl.
  - apply Contains_here.
  - by apply Contains_later.
Qed.

(** ** ParseVisibleDeviceList *)

Lemma nonempty_eqb (text : string) : text ≠ "" → String.eqb text "" = false.
Proof. intros Hne. by apply String.eqb_neq. Qed.

(** C6. A non-empty list whose every comma-separated piece is a 32-bit
    integer parses, successfully, to the set of those integers: a number
    is in the result exactly when some piece parses to it, every member
    fits [int32_t], and any other non-empty list with the same pieces in
    another order parses to the same set. *)
Theorem ParseVisibleDeviceList_set_of_parsed (visible_device_list : string) :
  visible_device_list ≠ "" →
  Forall (λ piece, is_Some (SimpleAtoi piece))
         (StrSplit visible_device_list) →
  ∃ gpu_ids : gset Z,
    ParseVisibleDeviceList visible_device_list
    = StatusOrValue (Some gpu_ids)
    ∧ gpu_ids = list_to_set (omap SimpleAtoi (StrSplit visible_device_list))
    ∧ (∀ n, n ∈ gpu_ids ↔
            ∃ piece, piece ∈ StrSplit visible_device_list
                     ∧ SimpleAtoi piece = Some n)
    ∧ (∀ n, n ∈ gpu_ids → kint32min ≤ n ≤ kint32max)
    ∧ (∀ reordered : string,
         reordered ≠ "" →
         StrSplit reordered ≡ₚ StrSplit visible_device_list →
         ParseVisibleDeviceList reordered = StatusOrValue (Some gpu_ids)).
Proof.
  intros Hne Hall.
  assert (Hmem : ∀ pieces (n : Z),
    n ∈ (list_to_set (omap SimpleAtoi pieces) : gset Z) ↔
    ∃ piece, piece ∈ pieces ∧ SimpleAtoi piece = Some n).
  { intros pieces n. rewrite elem_of_list_to_set, list_elem_of_omap.
    reflexivity. }
  exists (list_to_set (omap SimpleAtoi (StrSplit visible_device_list))).
  split; [|split; [reflexivity|split; [apply Hmem|split]]].
  - unfold ParseVisibleDeviceList. rewrite (nonempty_eqb _ Hne).
    rewrite ParseVisibleDeviceList_loop_ok by exact Hall.
    by rewrite (right_id_L ∅ (∪)).
  - intros n (piece & _ & Hn)%Hmem. by eapply SimpleAtoi_int32.
  - intros reordered Hne' Hperm.
    unfold ParseVisibleDeviceList. rewrite (nonempty_eqb _ Hne').
    rewrite ParseVisibleDeviceList_loop_ok by (by rewrite Hperm).
    rewrite (right_id_L ∅ (∪)). do 2 f_equal. apply set_eq. intros n.
    rewrite !Hmem. by setoid_rewrite Hperm.
Qed.

(** C7. The empty list parses, successfully, to no set at all: the
    result is [nullopt], and so not the empty set. *)
Theorem ParseVisibleDeviceList_empty :
  ParseVisibleDeviceList "" = StatusOrValue None
  ∧ ParseVisibleDeviceList "" ≠ StatusOrValue (Some ∅).
Proof. split; [reflexivity|discriminate]. Qed.

(** C8. A non-empty list with a piece that is no 32-bit integer fails
    with [InvalidArgument]; the message is built from the first such
    piece and the whole list, and both occur in it. *)
Theorem ParseVisibleDeviceList_bad_piece (visible_device_list : string) :
  visible_device_list ≠ "" →
  Exists (λ piece, SimpleAtoi piece = None) (StrSplit visible_device_list) →
  ∃ before token after,
    StrSplit visible_device_list = (before ++ token :: after)%list
    ∧ Forall (λ piece, is_Some (SimpleAtoi piece)) before
    ∧ SimpleAtoi token = None
    ∧ ok (ParseVisibleDeviceList visible_device_list) = false
    ∧ status (ParseVisibleDeviceList visible_device_list)
      = errors.InvalidArgument
          ["Could not parse entry in 'visible_device_list': '"; token;
           "'. visible_device_list = "; visible_device_list]
    ∧ code (status (ParseVisibleDeviceList visible_device_list))
      = Some error.INVALID_ARGUMENT
    ∧ Contains token
        (error_message (status (ParseVisibleDeviceList visible_device_list)))
    ∧ Contains visible_device_list
        (error_message (status (ParseVisibleDeviceList visible_device_list))).
Proof.
  intros Hne Hex.
  destruct (first_bad_piece _ Hex) as (before & token & after & Hsplit & Hall & Hbad).
  exists before, token, after.
  assert (Hstatus : status (ParseVisibleDeviceList visible_device_list)
      = errors.InvalidArgument
          ["Could not parse entry in 'visible_device_list': '"; token;
           "'. visible_device_list = "; visible_device_list]).
  { unfold ParseVisibleDeviceList. rewrite (nonempty_eqb _ Hne), Hsplit.
    by apply ParseVisibleDeviceList_loop_bad. }
  repeat split; try done.
  - destruct (ParseVisibleDeviceList visible_device_list); [discriminate|done].
  - by rewrite Hstatus.
  - rewrite Hstatus. apply Contains_StrCat. set_solver.
  - rewrite Hstatus. apply Contains_StrCat. set_solver.
Qed.

(** ** BuildXlaDeviceCompiler *)

(** Unfolds one layer of a run. *)
Ltac run :=
  cbv [mbind mret Run_bind Run_ret call store value deref negb ok status
       code]; cbn [xla_device_compiler calls].

(** C3. With backend metadata in the platform info, the build returns
    OK and stores a compiler built from the metadata itself: the
    compiler's device type is the metadata's JIT device type, its client
    is the metadata's client, and its persistor configuration is the
    one built from the flags. No collaborator is called: the call log
    is as it was, with no platform lookup, no compiler lookup, no
    client-library call and no op-registry lookup in it. *)
Theorem BuildXlaDeviceCompiler_from_metadata (env : Env)
    (device : DeviceBase) (flr : FunctionLibraryRuntime)
    (platform_info : XlaPlatformInfo) (metadata : XlaDevice.Metadata)
    (m : Mem) :
  xla_device_metadata platform_info = Some metadata →
  ∃ compiler,
    BuildXlaDeviceCompiler env device flr platform_info m
    = (Returned OkStatus,
       {| xla_device_compiler := Some compiler; calls := calls m |})
    ∧ compiler = CreateXlaDeviceCompiler (persistor_config_of env)
                   (XlaDevice.jit_device_type metadata)
                   (XlaDevice.client metadata)
    ∧ XlaDeviceExecutablePersistor.device_type (persistor compiler)
      = XlaDevice.jit_device_type metadata
    ∧ client (compiler_client compiler) = XlaDevice.client metadata
    ∧ XlaDeviceExecutablePersistor.config (persistor compiler)
      = persistor_config_of env.
Proof.
  intros Hmd. eexists. split; [|done].
  unfold BuildXlaDeviceCompiler. rewrite Hmd. reflexivity.
Qed.

(** C4. With no backend metadata and the device type TPU, the compiler
    is built with the device type [DEVICE_TPU_XLA_JIT] and a null
    client, and the status is OK. *)
Theorem BuildXlaDeviceCompiler_tpu (env : Env)
    (device : DeviceBase) (flr : FunctionLibraryRuntime)
    (platform_info : XlaPlatformInfo) (m : Mem) :
  xla_device_metadata platform_info = None →
  device_type platform_info = mkDeviceType DEVICE_TPU →
  ∃ compiler,
    BuildXlaDeviceCompiler env device flr platform_info m
    = (Returned OkStatus,
       {| xla_device_compiler := Some compiler; calls := calls m |})
    ∧ compiler = CreateXlaDeviceCompiler (persistor_config_of env)
                   (mkDeviceType DEVICE_TPU_XLA_JIT) None
    ∧ XlaDeviceExecutablePersistor.device_type (persistor compiler)
      = mkDeviceType DEVICE_TPU_XLA_JIT
    ∧ client (compiler_client compiler) = None.
Proof.
  intros Hmd Htpu. eexists. split; [|done].
  unfold BuildXlaDeviceCompiler. rewrite Hmd.
  destruct (decide _) as [_|Hne]; [reflexivity|by destruct Hne].
Qed.

(** The generic path up to the answer of the compiler lookup. *)
Lemma BuildXlaDeviceCompiler_generic (env : Env)
    (device : DeviceBase) (flr : FunctionLibraryRuntime)
    (platform_info : XlaPlatformInfo) (platform : se.Platform) (m : Mem) :
  xla_device_metadata platform_info = None →
  device_type platform_info ≠ mkDeviceType DEVICE_TPU →
  PlatformWithId env (platform_id platform_info) = StatusOrValue platform →
  BuildXlaDeviceCompiler env device flr platform_info m
  = let m' := log m [CallPlatformWithId (platform_id platform_info);
                     CallGetForPlatform platform] in
    match GetForPlatform env platform with
    | StatusOrError error.NOT_FOUND message =>
        (Returned
           (errors.Unimplemented
              ["Could not find compiler for platform "; se.Name platform;
               ": "; ToString (ErrorStatus error.NOT_FOUND message)]), m')
    | _ =>
        BuildXlaDeviceCompiler_on_platform env device flr platform_info
          (persistor_config_of env) platform m'
    end.
Proof.
  intros Hmd Htpu Hplatform. unfold BuildXlaDeviceCompiler.
  rewrite Hmd. destruct (decide _) as [|_]; [done|].
  run. rewrite Hplatform. run. unfold log. rewrite <- (assoc_L (++)).
  destruct (GetForPlatform env platform) as [compiler|c message];
    [reflexivity|].
  destruct (decide _) as [[= ->]|Hc]; [reflexivity|].
  destruct c; try reflexivity. done.
Qed.

(** The generic path when the platform does not resolve: the lookup's
    own status comes back. *)
Lemma BuildXlaDeviceCompiler_no_platform (env : Env)
    (device : DeviceBase) (flr : FunctionLibraryRuntime)
    (platform_info : XlaPlatformInfo) (c : error.Code) (message : string)
    (m : Mem) :
  xla_device_metadata platform_info = None →
  device_type platform_info ≠ mkDeviceType DEVICE_TPU →
  PlatformWithId env (platform_id platform_info) = StatusOrError c message →
  BuildXlaDeviceCompiler env device flr platform_info m
  = (Returned (ErrorStatus c message),
     log m [CallPlatformWithId (platform_id platform_info)]).
Proof.
  intros Hmd Htpu Hplatform. unfold BuildXlaDeviceCompiler.
  rewrite Hmd. destruct (decide _) as [|_]; [done|].
  run. rewrite Hplatform. reflexivity.
Qed.

(** The rest of the generic path, case by case. *)
Lemma BuildXlaDeviceCompiler_on_platform_cases (env : Env)
    (device : DeviceBase) (flr : FunctionLibraryRuntime)
    (platform_info : XlaPlatformInfo)
    (persistor_config : XlaDeviceExecutablePersistor.Config)
    (platform : se.Platform) (m : Mem) :
  BuildXlaDeviceCompiler_on_platform env device flr platform_info
    persistor_config platform m
  = match Device.tensorflow_cpu_worker_threads device with
    | None => (Crashed, m)
    | Some threads =>
        match GetAllowedGpus flr with
        | StatusOrError c message => (Returned (ErrorStatus c message), m)
        | StatusOrValue allowed_gpus =>
            let client_options :=
              client_options_of platform (num_threads threads) allowed_gpus in
            let device_type_string := type (device_type platform_info) in
            match GetOrCreateLocalClient env client_options with
            | StatusOrError c message =>
                (Returned (ErrorStatus c message),
                 log m [CallGetOrCreateLocalClient client_options])
            | StatusOrValue local_client =>
                let m' :=
                  log m [CallGetOrCreateLocalClient client_options;
                         CallGetCompilationDevice device_type_string] in
                match GetCompilationDevice env device_type_string with
                | None =>
                    (Returned
                       (errors.InvalidArgument
                          ["No JIT device registered for ";
                           device_type_string]), m')
                | Some registration =>
                    (Returned OkStatus,
                     {| xla_device_compiler :=
                          Some (CreateXlaDeviceCompiler persistor_config
                                  (mkDeviceType
                                     (XlaOpRegistry.compilation_device_name
                                        registration))
                                  (Some local_client));
                        calls := calls m' |})
                end
            end
        end
    end.
Proof.
  unfold BuildXlaDeviceCompiler_on_platform.
  destruct (Device.tensorflow_cpu_worker_threads device) as [threads|];
    [|reflexivity].
  run. destruct (GetAllowedGpus flr) as [allowed_gpus|c message];
    [|reflexivity].
  fold (client_options_of platform (num_threads threads) allowed_gpus).
  run. destruct (GetOrCreateLocalClient env _) as [local_client|c message];
    [|reflexivity].
  unfold log. cbn [calls xla_device_compiler]. rewrite <- (assoc_L (++)).
  destruct (GetCompilationDevice env _) as [registration|]; reflexivity.
Qed.

(** C1. On the generic path, when the platform resolves and the compiler
    lookup for it answers not-found, the build returns an
    [Unimplemented] status whose message holds the platform's name and
    the lookup's own status; the out-parameter keeps what it held, and
    only the two lookups were called. *)
Theorem BuildXlaDeviceCompiler_no_compiler (env : Env)
    (device : DeviceBase) (flr : FunctionLibraryRuntime)
    (platform_info : XlaPlatformInfo) (platform : se.Platform)
    (cause : string) (m : Mem) :
  xla_device_metadata platform_info = None →
  device_type platform_info ≠ mkDeviceType DEVICE_TPU →
  PlatformWithId env (platform_id platform_info) = StatusOrValue platform →
  GetForPlatform env platform = StatusOrError error.NOT_FOUND cause →
  ∃ message,
    BuildXlaDeviceCompiler env device flr platform_info m
    = (Returned (ErrorStatus error.UNIMPLEMENTED message),
       {| xla_device_compiler := xla_device_compiler m;
          calls := calls m ++
                   [CallPlatformWithId (platform_id platform_info);
                    CallGetForPlatform platform] |})
    ∧ Contains (se.Name platform) message
    ∧ Contains (ToString (ErrorStatus error.NOT_FOUND cause)) message.
Proof.
  intros Hmd Htpu Hplatform Hcompiler.
  rewrite (BuildXlaDeviceCompiler_generic _ _ _ _ _ _ Hmd Htpu Hplatform).
  rewrite Hcompiler. cbv zeta. eexists. split; [reflexivity|].
  split; apply Contains_StrCat; set_solver.
Qed.

(** C10. On the generic path, when the platform resolves and the
    compiler lookup fails with a code other than not-found, the build
    goes on with the client options as if the lookup had not failed:
    the run is the rest of the function after the two lookups, in which
    the lookup's error does not occur. With worker threads and a
    parsable visible-device list the client library is called, and with
    a client and a registered compilation device the build returns OK
    with the compiler made from them. *)
Theorem BuildXlaDeviceCompiler_lookup_error_dropped (env : Env)
    (device : DeviceBase) (flr : FunctionLibraryRuntime)
    (platform_info : XlaPlatformInfo) (platform : se.Platform)
    (c : error.Code) (cause : string) (m : Mem) :
  xla_device_metadata platform_info = None →
  device_type platform_info ≠ mkDeviceType DEVICE_TPU →
  PlatformWithId env (platform_id platform_info) = StatusOrValue platform →
  GetForPlatform env platform = StatusOrError c cause →
  c ≠ error.NOT_FOUND →
  let m' := log m [CallPlatformWithId (platform_id platform_info);
                   CallGetForPlatform platform] in
  BuildXlaDeviceCompiler env device flr platform_info m
  = BuildXlaDeviceCompiler_on_platform env device flr platform_info
      (persistor_config_of env) platform m'
  ∧ (∀ threads allowed_gpus,
       Device.tensorflow_cpu_worker_threads device = Some threads →
       GetAllowedGpus flr = StatusOrValue allowed_gpus →
       let client_options :=
         client_options_of platform (num_threads threads) allowed_gpus in
       CallGetOrCreateLocalClient client_options
       ∈ calls (BuildXlaDeviceCompiler env device flr platform_info m).2
       ∧ ∀ local_client registration,
           GetOrCreateLocalClient env client_options
           = StatusOrValue local_client →
           GetCompilationDevice env (type (device_type platform_info))
           = Some registration →
           BuildXlaDeviceCompiler env device flr platform_info m
           = (Returned OkStatus,
              {| xla_device_compiler :=
                   Some (CreateXlaDeviceCompiler (persistor_config_of env)
                           (mkDeviceType
                              (XlaOpRegistry.compilation_device_name
                                 registration))
                           (Some local_client));
                 calls :=
                   calls m ++
                   [CallPlatformWithId (platform_id platform_info);
                    CallGetForPlatform platform;
                    CallGetOrCreateLocalClient client_options;
                    CallGetCompilationDevice
                      (type (device_type platform_info))] |})).
Proof.
  intros Hmd Htpu Hplatform Hcompiler Hc m'.
  assert (Hrun : BuildXlaDeviceCompiler env device flr platform_info m
    = BuildXlaDeviceCompiler_on_platform env device flr platform_info
        (persistor_config_of env) platform m').
  { rewrite (BuildXlaDeviceCompiler_generic _ _ _ _ _ _ Hmd Htpu Hplatform).
    rewrite Hcompiler. by destruct c. }
  split; [exact Hrun|].
  intros threads allowed_gpus Hthreads Hallowed client_options.
  rewrite Hrun, BuildXlaDeviceCompiler_on_platform_cases, Hthreads, Hallowed.
  cbv zeta. fold client_options. split.
  - destruct (GetOrCreateLocalClient env client_options);
      [destruct (GetCompilationDevice env _)|]; cbn; set_solver.
  - intros local_client registration -> ->. unfold m', log. cbn.
    by rewrite <- (assoc_L (++)).
Qed.

(** C5, as the code has it. On the generic path with no compilation
    device registered for the device's type string, the build never
    returns OK and leaves the out-parameter as it was; and when the
    platform resolves, the compiler lookup does not answer not-found,
    the device has worker threads, the visible-device list parses and
    the client library gives a client, the build returns
    [InvalidArgument] with the message "No JIT device registered for "
    followed by that type string. *)
Theorem BuildXlaDeviceCompiler_unregistered (env : Env)
    (device : DeviceBase) (flr : FunctionLibraryRuntime)
    (platform_info : XlaPlatformInfo) (m : Mem) :
  xla_device_metadata platform_info = None →
  device_type platform_info ≠ mkDeviceType DEVICE_TPU →
  GetCompilationDevice env (type (device_type platform_info)) = None →
  (BuildXlaDeviceCompiler env device flr platform_info m).1
  ≠ Returned OkStatus
  ∧ xla_device_compiler
      (BuildXlaDeviceCompiler env device flr platform_info m).2
    = xla_device_compiler m
  ∧ ∀ platform threads allowed_gpus local_client,
      PlatformWithId env (platform_id platform_info)
      = StatusOrValue platform →
      code (status (GetForPlatform env platform)) ≠ Some error.NOT_FOUND →
      Device.tensorflow_cpu_worker_threads device = Some threads →
      GetAllowedGpus flr = StatusOrValue allowed_gpus →
      GetOrCreateLocalClient env
        (client_options_of platform (num_threads threads) allowed_gpus)
      = StatusOrValue local_client →
      ∃ message,
        BuildXlaDeviceCompiler env device flr platform_info m
        = (Returned (ErrorStatus error.INVALID_ARGUMENT message),
           log m [CallPlatformWithId (platform_id platform_info);
                  CallGetForPlatform platform;
                  CallGetOrCreateLocalClient
                    (client_options_of platform (num_threads threads)
                       allowed_gpus);
                  CallGetCompilationDevice
                    (type (device_type platform_info))])
        ∧ message
          = "No JIT device registered for "
            +:+ type (device_type platform_info) +:+ ""
        ∧ Contains (type (device_type platform_info)) message.
Proof.
  intros Hmd Htpu Hreg.
  assert (Hrest : ∀ config platform m0,
    let r := BuildXlaDeviceCompiler_on_platform env device flr
               platform_info config platform m0 in
    r.1 ≠ Returned OkStatus
    ∧ xla_device_compiler r.2 = xla_device_compiler m0).
  { intros config platform m0. cbv zeta.
    rewrite BuildXlaDeviceCompiler_on_platform_cases. cbv zeta.
    rewrite Hreg. repeat case_match; by cbn. }
  split_and!.
  - destruct (PlatformWithId env (platform_id platform_info))
      as [platform|c message] eqn:Hplatform.
    + rewrite (BuildXlaDeviceCompiler_generic _ _ _ _ _ _ Hmd Htpu Hplatform).
      cbv zeta. destruct (GetForPlatform env platform) as [|[] ?];
        try apply Hrest. by cbn.
    + by rewrite (BuildXlaDeviceCompiler_no_platform
                    _ _ _ _ _ _ _ Hmd Htpu Hplatform).
  - destruct (PlatformWithId env (platform_id platform_info))
      as [platform|c message] eqn:Hplatform.
    + rewrite (BuildXlaDeviceCompiler_generic _ _ _ _ _ _ Hmd Htpu Hplatform).
      cbv zeta. destruct (GetForPlatform env platform) as [|[] ?];
        try (etrans; [apply Hrest|]); by cbn.
    + by rewrite (BuildXlaDeviceCompiler_no_platform
                    _ _ _ _ _ _ _ Hmd Htpu Hplatform).
  - intros platform threads allowed_gpus local_client
           Hplatform Hcompiler Hthreads Hallowed Hclient.
    rewrite (BuildXlaDeviceCompiler_generic _ _ _ _ _ _ Hmd Htpu Hplatform).
    cbv zeta.
    assert (Hon : BuildXlaDeviceCompiler_on_platform env device flr
        platform_info (persistor_config_of env) platform
        (log m [CallPlatformWithId (platform_id platform_info);
                CallGetForPlatform platform])
      = (Returned
           (errors.InvalidArgument
              ["No JIT device registered for ";
               type (device_type platform_info)]),
         log m [CallPlatformWithId (platform_id platform_info);
                CallGetForPlatform platform;
                CallGetOrCreateLocalClient
                  (client_options_of platform (num_threads threads)
                     allowed_gpus);
                CallGetCompilationDevice
                  (type (device_type platform_info))])).
    { rewrite BuildXlaDeviceCompiler_on_platform_cases.
      rewrite Hthreads, Hallowed. cbv zeta. rewrite Hclient, Hreg.
      unfold log. cbn. by rewrite <- (assoc_L (++)). }
    eexists. split; [|split; [reflexivity|]].
    + destruct (GetForPlatform env platform) as [|[] ?]; try exact Hon.
      by destruct Hcompiler.
    + apply (Contains_StrCat _ ["No JIT device registered for "; _]).
      clear. set_solver.
Qed.

(** ** GetAllocator *)

(** C9. With a custom allocator in the platform info, [GetAllocator]
    returns that allocator, whatever the stream; nothing is called, the
    device's allocator accessor included: the memory is as it was. *)
Theorem GetAllocator_custom (env : Env) (device : DeviceBase)
    (stream : option se.Stream) (platform_info : XlaPlatformInfo)
    (allocator : se.DeviceMemoryAllocator) (m : Mem) :
  custom_allocator platform_info = Some allocator →
  GetAllocator env device stream platform_info m = (Returned allocator, m).
Proof. intros Hcustom. unfold GetAllocator. by rewrite Hcustom. Qed.

(** With a stream and no custom allocator, the adapter is built on the
    stream, around the device's allocator. *)
Lemma GetAllocator_stream (env : Env) (device : DeviceBase)
    (stream : se.Stream) (platform_info : XlaPlatformInfo) (m : Mem) :
  custom_allocator platform_info = None →
  GetAllocator env device (Some stream) platform_info m
  = (Returned (se.TfAllocatorAdapter (Device.allocator device) (inr stream)),
     log m [CallDeviceGetAllocator device]).
Proof. intros Hcustom. unfold GetAllocator. by rewrite Hcustom. Qed.

(** With no stream, no custom allocator and a platform id that
    resolves, the adapter is built on the platform. *)
Lemma GetAllocator_platform (env : Env) (device : DeviceBase)
    (platform_info : XlaPlatformInfo) (platform : se.Platform) (m : Mem) :
  custom_allocator platform_info = None →
  PlatformWithId env (platform_id platform_info) = StatusOrValue platform →
  GetAllocator env device None platform_info m
  = (Returned (se.TfAllocatorAdapter (Device.allocator device) (inl platform)),
     log m [CallDeviceGetAllocator device;
            CallPlatformWithId (platform_id platform_info)]).
Proof.
  intros Hcustom Hplatform. unfold GetAllocator. rewrite Hcustom.
  run. rewrite Hplatform. unfold log. cbn. by rewrite <- (assoc_L (++)).
Qed.

(** C2, as the code has it. With no custom allocator, no stream and a
    platform id that does not resolve, [GetAllocator] asks the device
    for its allocator, asks for the platform, and ends the process on
    extracting the value of the failed lookup: it returns nothing, no
    error either. *)
Theorem GetAllocator_unresolved_platform (env : Env) (device : DeviceBase)
    (platform_info : XlaPlatformInfo) (c : error.Code) (message : string)
    (m : Mem) :
  custom_allocator platform_info = None →
  PlatformWithId env (platform_id platform_info) = StatusOrError c message →
  GetAllocator env device None platform_info m
  = (Crashed,
     log m [CallDeviceGetAllocator device;
            CallPlatformWithId (platform_id platform_info)]).
Proof.
  intros Hcustom Hplatform. unfold GetAllocator. rewrite Hcustom.
  run. rewrite Hplatform. unfold log. cbn. by rewrite <- (assoc_L (++)).
Qed.

(** ** XlaPlatformInfoFromDevice *)

(** A device that is neither CPU nor GPU and has no XLA metadata gets a
    platform info with the null platform id and no custom allocator:
    the input of [GetAllocator_unresolved_platform]. *)
Lemma XlaPlatformInfoFromDevice_other (env : Env) (device : DeviceBase)
    (c : error.Code) (message : string) (m : Mem) :
  Device.device_type device ≠ DEVICE_CPU →
  Device.device_type device ≠ DEVICE_GPU →
  GetMetadataFromDevice env device = StatusOrError c message →
  XlaPlatformInfoFromDevice env device m
  = (Returned {| device_type := mkDeviceType (Device.device_type device);
                 platform_id := None;
                 xla_device_metadata := None;
                 custom_allocator := None |},
     log m [CallGetMetadataFromDevice device]).
Proof.
  intros Hcpu Hgpu Hmd. unfold XlaPlatformInfoFromDevice.
  do 2 (destruct (decide _); [done|]). run. by rewrite Hmd.
Qed.

(** * The code on the sample process *)

Example ParseVisibleDeviceList_0112 :
  ParseVisibleDeviceList "0,1,1,2" = StatusOrValue (Some {[0; 1; 2]}).
Proof. vm_compute. reflexivity. Qed.

Example ParseVisibleDeviceList_order :
  ParseVisibleDeviceList "2,0,1" = ParseVisibleDeviceList "0,1,1,2".
Proof. vm_compute. reflexivity. Qed.

Example ParseVisibleDeviceList_0x :
  ParseVisibleDeviceList "0,x"
  = StatusOrError error.INVALID_ARGUMENT
      "Could not parse entry in 'visible_device_list': 'x'. visible_device_list = 0,x".
Proof. reflexivity. Qed.

Example ParseVisibleDeviceList_trailing_comma :
  ParseVisibleDeviceList "0,"
  = StatusOrError error.INVALID_ARGUMENT
      "Could not parse entry in 'visible_device_list': ''. visible_device_list = 0,".
Proof. reflexivity. Qed.

Example ParseVisibleDeviceList_out_of_range :
  ok (ParseVisibleDeviceList "2147483648") = false
  ∧ ParseVisibleDeviceList "-2147483648"
    = StatusOrValue (Some {[ -2147483648 ]}).
Proof. split; vm_compute; reflexivity. Qed.

Lemma ParseVisibleDeviceList_set_of_parsed_witness :
  ∃ gpu_ids : gset Z,
    ParseVisibleDeviceList "0,1,1,2" = StatusOrValue (Some gpu_ids)
    ∧ gpu_ids = list_to_set (omap SimpleAtoi (StrSplit "0,1,1,2"))
    ∧ (∀ n, n ∈ gpu_ids ↔
            ∃ piece, piece ∈ StrSplit "0,1,1,2" ∧ SimpleAtoi piece = Some n)
    ∧ (∀ n, n ∈ gpu_ids → kint32min ≤ n ≤ kint32max)
    ∧ (∀ reordered : string,
         reordered ≠ "" →
         StrSplit reordered ≡ₚ StrSplit "0,1,1,2" →
         ParseVisibleDeviceList reordered = StatusOrValue (Some gpu_ids)).
Proof.
  apply (ParseVisibleDeviceList_set_of_parsed "0,1,1,2").
  - discriminate.
  - change (StrSplit "0,1,1,2") with ["0"; "1"; "1"; "2"].
    repeat (constructor; [eexists; reflexivity|]). constructor.
Defined.

Lemma ParseVisibleDeviceList_bad_piece_witness :
  ∃ before token after,
    StrSplit "0,x" = (before ++ token :: after)%list
    ∧ Forall (λ piece, is_Some (SimpleAtoi piece)) before
    ∧ SimpleAtoi token = None
    ∧ ok (ParseVisibleDeviceList "0,x") = false
    ∧ status (ParseVisibleDeviceList "0,x")
      = errors.InvalidArgument
          ["Could not parse entry in 'visible_device_list': '"; token;
           "'. visible_device_list = "; "0,x"]
    ∧ code (status (ParseVisibleDeviceList "0,x"))
      = Some error.INVALID_ARGUMENT
    ∧ Contains token (error_message (status (ParseVisibleDeviceList "0,x")))
    ∧ Contains "0,x" (error_message (status (ParseVisibleDeviceList "0,x"))).
Proof.
  apply (ParseVisibleDeviceList_bad_piece "0,x").
  - discriminate.
  - change (StrSplit "0,x") with ["0"; "x"].
    apply Exists_cons_tl, Exists_cons_hd. reflexivity.
Defined.

Lemma BuildXlaDeviceCompiler_from_metadata_witness :
  ∃ compiler,
    BuildXlaDeviceCompiler Sample.env (Sample.device "XLA_CPU")
      (Sample.flr "") Sample.xla_info Sample.start
    = (Returned OkStatus,
       {| xla_device_compiler := Some compiler;
          calls := calls Sample.start |})
    ∧ compiler = CreateXlaDeviceCompiler (persistor_config_of Sample.env)
                   (XlaDevice.jit_device_type Sample.metadata)
                   (XlaDevice.client Sample.metadata)
    ∧ XlaDeviceExecutablePersistor.device_type (persistor compiler)
      = XlaDevice.jit_device_type Sample.metadata
    ∧ client (compiler_client compiler) = XlaDevice.client Sample.metadata
    ∧ XlaDeviceExecutablePersistor.config (persistor compiler)
      = persistor_config_of Sample.env.
Proof.
  apply (BuildXlaDeviceCompiler_from_metadata Sample.env
           (Sample.device "XLA_CPU") (Sample.flr "") Sample.xla_info
           Sample.metadata Sample.start).
  reflexivity.
Defined.

Lemma BuildXlaDeviceCompiler_tpu_witness :
  ∃ compiler,
    BuildXlaDeviceCompiler Sample.env (Sample.device "TPU") (Sample.flr "")
      (Sample.info "TPU" None) Sample.start
    = (Returned OkStatus,
       {| xla_device_compiler := Some compiler;
          calls := calls Sample.start |})
    ∧ compiler = CreateXlaDeviceCompiler (persistor_config_of Sample.env)
                   (mkDeviceType DEVICE_TPU_XLA_JIT) None
    ∧ XlaDeviceExecutablePersistor.device_type (persistor compiler)
      = mkDeviceType DEVICE_TPU_XLA_JIT
    ∧ client (compiler_client compiler) = None.
Proof.
  apply (BuildXlaDeviceCompiler_tpu Sample.env (Sample.device "TPU")
           (Sample.flr "") (Sample.info "TPU" None) Sample.start);
    reflexivity.
Defined.

Lemma BuildXlaDeviceCompiler_no_compiler_witness :
  ∃ message,
    BuildXlaDeviceCompiler Sample.env (Sample.device "GPU") (Sample.flr "")
      (Sample.info "GPU" (Some 2%nat)) Sample.start
    = (Returned (ErrorStatus error.UNIMPLEMENTED message),
       {| xla_device_compiler := xla_device_compiler Sample.start;
          calls := calls Sample.start ++
                   [CallPlatformWithId
                      (platform_id (Sample.info "GPU" (Some 2%nat)));
                    CallGetForPlatform Sample.cuda] |})
    ∧ Contains (se.Name Sample.cuda) message
    ∧ Contains
        (ToString
           (ErrorStatus error.NOT_FOUND
              "could not find registered compiler for platform CUDA"))
        message.
Proof.
  apply (BuildXlaDeviceCompiler_no_compiler Sample.env (Sample.device "GPU")
           (Sample.flr "") (Sample.info "GPU" (Some 2%nat)) Sample.cuda
           "could not find registered compiler for platform CUDA"
           Sample.start);
    [reflexivity|discriminate|reflexivity|reflexivity].
Defined.

Lemma BuildXlaDeviceCompiler_lookup_error_dropped_witness :
  BuildXlaDeviceCompiler Sample.env (Sample.device "GPU") (Sample.flr "0,1")
    (Sample.info "GPU" (Some 3%nat)) Sample.start
  = (Returned OkStatus,
     {| xla_device_compiler :=
          Some (CreateXlaDeviceCompiler (persistor_config_of Sample.env)
                  (mkDeviceType "XLA_GPU_JIT") (Some 3%nat));
        calls :=
          [CallPlatformWithId (Some 3%nat);
           CallGetForPlatform Sample.rocm;
           CallGetOrCreateLocalClient
             (client_options_of Sample.rocm 8 (Some {[0; 1]}));
           CallGetCompilationDevice "GPU"] |}).
Proof.
  pose proof (BuildXlaDeviceCompiler_lookup_error_dropped Sample.env
    (Sample.device "GPU") (Sample.flr "0,1")
    (Sample.info "GPU" (Some 3%nat)) Sample.rocm error.INTERNAL
    "compiler factory failed" Sample.start) as H.
  destruct H as [_ H]; [reflexivity|discriminate|reflexivity|reflexivity
                       |discriminate|].
  destruct (H {| num_threads := 8 |} (Some {[0; 1]})) as [_ Hok];
    [reflexivity|vm_compute; reflexivity|].
  apply (Hok 3%nat {| XlaOpRegistry.compilation_device_name := "XLA_GPU_JIT" |});
    reflexivity.
Defined.

(** A device type with no registered compilation device, and a platform
    id that does not resolve: the build returns the platform lookup's
    status, which is not [InvalidArgument] and does not name the device
    type. *)
Lemma BuildXlaDeviceCompiler_unregistered_platform_error_first :
  xla_device_metadata (Sample.info "FPGA" None) = None
  ∧ device_type (Sample.info "FPGA" None) ≠ mkDeviceType DEVICE_TPU
  ∧ GetCompilationDevice Sample.env
      (type (device_type (Sample.info "FPGA" None))) = None
  ∧ BuildXlaDeviceCompiler Sample.env (Sample.device "FPGA") (Sample.flr "")
      (Sample.info "FPGA" None) Sample.start
    = (Returned
         (ErrorStatus error.NOT_FOUND
            "could not find registered platform with id"),
       {| xla_device_compiler := None;
          calls := [CallPlatformWithId None] |})
  ∧ ¬ (∃ message m',
         BuildXlaDeviceCompiler Sample.env (Sample.device "FPGA")
           (Sample.flr "") (Sample.info "FPGA" None) Sample.start
         = (Returned (ErrorStatus error.INVALID_ARGUMENT message), m')).
Proof.
  split_and!; [reflexivity|discriminate|reflexivity|reflexivity|].
  intros (message & m' & H). discriminate H.
Qed.

Lemma BuildXlaDeviceCompiler_unregistered_witness :
  ∃ message,
    BuildXlaDeviceCompiler Sample.env (Sample.device "FPGA") (Sample.flr "")
      (Sample.info "FPGA" (Some 1%nat)) Sample.start
    = (Returned (ErrorStatus error.INVALID_ARGUMENT message),
       log Sample.start
         [CallPlatformWithId (Some 1%nat);
          CallGetForPlatform Sample.host;
          CallGetOrCreateLocalClient (client_options_of Sample.host 8 None);
          CallGetCompilationDevice "FPGA"])
    ∧ message = "No JIT device registered for " +:+ "FPGA" +:+ ""
    ∧ Contains "FPGA" message.
Proof.
  destruct (BuildXlaDeviceCompiler_unregistered Sample.env
              (Sample.device "FPGA") (Sample.flr "")
              (Sample.info "FPGA" (Some 1%nat)) Sample.start)
    as (_ & _ & H); [reflexivity|discriminate|reflexivity|].
  apply (H Sample.host {| num_threads := 8 |} None 1%nat);
    [reflexivity|discriminate|reflexivity|reflexivity|reflexivity].
Defined.

Lemma GetAllocator_custom_witness :
  GetAllocator Sample.env (Sample.device "XLA_CPU") (Some Sample.stream)
    Sample.xla_info Sample.start
  = (Returned (se.BackendAllocator 9%nat), Sample.start)
  ∧ GetAllocator Sample.env (Sample.device "XLA_CPU") None
      Sample.xla_info Sample.start
    = (Returned (se.BackendAllocator 9%nat), Sample.start).
Proof.
  split.
  - apply (GetAllocator_custom Sample.env (Sample.device "XLA_CPU")
             (Some Sample.stream) Sample.xla_info). reflexivity.
  - apply (GetAllocator_custom Sample.env (Sample.device "XLA_CPU")
             None Sample.xla_info). reflexivity.
Defined.

(** A TPU device with no XLA metadata: the platform info made from it
    has the null platform id, and [GetAllocator] without a stream ends
    the process. *)
Lemma GetAllocator_unresolved_platform_witness :
  XlaPlatformInfoFromDevice Sample.env (Sample.device "TPU") Sample.start
  = (Returned (Sample.info "TPU" None),
     log Sample.start [CallGetMetadataFromDevice (Sample.device "TPU")])
  ∧ GetAllocator Sample.env (Sample.device "TPU") None
      (Sample.info "TPU" None) Sample.start
    = (Crashed,
       log Sample.start
         [CallDeviceGetAllocator (Sample.device "TPU");
          CallPlatformWithId None]).
Proof.
  split; [reflexivity|].
  apply (GetAllocator_unresolved_platform Sample.env (Sample.device "TPU")
           (Sample.info "TPU" None) error.NOT_FOUND
           "could not find registered platform with id" Sample.start);
    reflexivity.
Defined.

(** * Further properties *)

(** ** Splitting and the loop *)

Lemma StrSplit_nonempty (text : string) : StrSplit text ≠ [].
Proof.
  destruct text as [|c rest]; [done|]. simpl.
  destruct (Ascii.eqb c ","); [done|]. by destruct (StrSplit rest).
Qed.

(** A comma between two texts puts their pieces side by side. *)
Lemma StrSplit_comma (a b : string) :
  StrSplit (a +:+ "," +:+ b) = (StrSplit a ++ StrSplit b)%list.
Proof.
  induction a as [|c a IH]; [reflexivity|].
  change (String c a +:+ "," +:+ b) with (String c (a +:+ "," +:+ b)).
  simpl. rewrite IH. destruct (Ascii.eqb c ","); [reflexivity|].
  pose proof (StrSplit_nonempty a). by destruct (StrSplit a).
Qed.

Lemma append_comma_nonempty (a b : string) : a +:+ "," +:+ b ≠ "".
Proof. by destruct a. Qed.

Lemma pieces_good_or_bad (pieces : list string) :
  Forall (λ piece, is_Some (SimpleAtoi piece)) pieces
  ∨ Exists (λ piece, SimpleAtoi piece = None) pieces.
Proof.
  induction pieces as [|piece rest [IH|IH]].
  - left. constructor.
  - destruct (SimpleAtoi piece) as [n|] eqn:Hpiece.
    + left. constructor; [by eexists|exact IH].
    + right. by constructor.
  - right. by constructor 2.
Qed.

Lemma pieces_not_both (pieces : list string) :
  Forall (λ piece, is_Some (SimpleAtoi piece)) pieces →
  Exists (λ piece, SimpleAtoi piece = None) pieces → False.
Proof.
  intros Hall Hex. induction Hex as [piece rest Hbad|piece rest _ IH];
    inversion Hall as [|? ? [n Hn] Hrest]; subst; [congruence|by apply IH].
Qed.

(** What a failing parse returns, as a [StatusOr]. *)
Lemma ParseVisibleDeviceList_fails (text : string) :
  text ≠ "" →
  Exists (λ piece, SimpleAtoi piece = None) (StrSplit text) →
  ∃ token,
    token ∈ StrSplit text ∧ SimpleAtoi token = None
    ∧ ParseVisibleDeviceList text
      = StatusOrError error.INVALID_ARGUMENT
          (StrCat ["Could not parse entry in 'visible_device_list': '";
                   token; "'. visible_device_list = "; text]).
Proof.
  intros Hne Hex.
  destruct (first_bad_piece _ Hex)
    as (before & token & after & Hsplit & Hall & Hbad).
  exists token. split; [rewrite Hsplit; set_solver|]. split; [exact Hbad|].
  pose proof (ParseVisibleDeviceList_loop_bad text before token after ∅
                Hall Hbad) as Hstatus.
  unfold ParseVisibleDeviceList. rewrite (nonempty_eqb _ Hne), Hsplit.
  destruct (ParseVisibleDeviceList_loop _ _ _); [discriminate|].
  by injection Hstatus as -> ->.
Qed.

(** What a succeeding parse returns. *)
Lemma ParseVisibleDeviceList_succeeds (text : string) :
  text ≠ "" →
  Forall (λ piece, is_Some (SimpleAtoi piece)) (StrSplit text) →
  ParseVisibleDeviceList text
  = StatusOrValue (Some (list_to_set (omap SimpleAtoi (StrSplit text)))).
Proof.
  intros Hne Hall. unfold ParseVisibleDeviceList.
  rewrite (nonempty_eqb _ Hne), ParseVisibleDeviceList_loop_ok by exact Hall.
  by rewrite (right_id_L ∅ (∪)).
Qed.

(** A parse that returned a set: the text was not empty and every piece
    was an integer. *)
Lemma ParseVisibleDeviceList_Some_inv (text : string) (gpu_ids : gset Z) :
  ParseVisibleDeviceList text = StatusOrValue (Some gpu_ids) →
  text ≠ ""
  ∧ Forall (λ piece, is_Some (SimpleAtoi piece)) (StrSplit text)
  ∧ gpu_ids = list_to_set (omap SimpleAtoi (StrSplit text)).
Proof.
  intros Hparse.
  assert (Hne : text ≠ "") by (intros ->; discriminate Hparse).
  destruct (pieces_good_or_bad (StrSplit text)) as [Hall|Hex].
  - rewrite (ParseVisibleDeviceList_succeeds _ Hne Hall) in Hparse.
    by injection Hparse as <-.
  - destruct (ParseVisibleDeviceList_fails _ Hne Hex) as (? & _ & _ & Hfail).
    congruence.
Qed.

(** ** ParseVisibleDeviceList, further *)

(** X1. A parse succeeds exactly when the text is empty or every
    comma-separated piece of it is a 32-bit integer. *)
Theorem ParseVisibleDeviceList_ok_iff (visible_device_list : string) :
  ok (ParseVisibleDeviceList visible_device_list) = true
  ↔ visible_device_list = ""
    ∨ Forall (λ piece, is_Some (SimpleAtoi piece))
             (StrSplit visible_device_list).
Proof.
  split.
  - intros Hok.
    destruct (decide (visible_device_list = "")) as [|Hne]; [by left|right].
    destruct (pieces_good_or_bad (StrSplit visible_device_list))
      as [Hall|Hex]; [exact Hall|].
    destruct (ParseVisibleDeviceList_fails _ Hne Hex) as (? & _ & _ & Hfail).
    by rewrite Hfail in Hok.
  - intros [->|Hall]; [reflexivity|].
    destruct (decide (visible_device_list = "")) as [->|Hne]; [reflexivity|].
    by rewrite (ParseVisibleDeviceList_succeeds _ Hne Hall).
Qed.

(** X2. A parse never returns an engaged empty set: a returned set has
    a member. *)
Theorem ParseVisibleDeviceList_never_empty_set
    (visible_device_list : string) (gpu_ids : gset Z) :
  ParseVisibleDeviceList visible_device_list = StatusOrValue (Some gpu_ids) →
  ∃ n, n ∈ gpu_ids.
Proof.
  intros (Hne & Hall & ->)%ParseVisibleDeviceList_Some_inv.
  pose proof (StrSplit_nonempty visible_device_list) as Hpieces.
  destruct (StrSplit visible_device_list) as [|piece rest]; [done|].
  inversion Hall as [|? ? [n Hn] _]; subst. exists n.
  simpl. rewrite Hn. set_solver.
Qed.

(** X3. Two lists that parse to sets, joined by a comma, parse to the
    union of the sets; the order of joining does not matter, and a list
    joined to itself parses to its own set. *)
Theorem ParseVisibleDeviceList_join (a b : string) (ids_a ids_b : gset Z) :
  ParseVisibleDeviceList a = StatusOrValue (Some ids_a) →
  ParseVisibleDeviceList b = StatusOrValue (Some ids_b) →
  ParseVisibleDeviceList (a +:+ "," +:+ b)
  = StatusOrValue (Some (ids_a ∪ ids_b))
  ∧ ParseVisibleDeviceList (b +:+ "," +:+ a)
    = ParseVisibleDeviceList (a +:+ "," +:+ b)
  ∧ ParseVisibleDeviceList (a +:+ "," +:+ a) = StatusOrValue (Some ids_a).
Proof.
  intros (Hna & Ha & ->)%ParseVisibleDeviceList_Some_inv
         (Hnb & Hb & ->)%ParseVisibleDeviceList_Some_inv.
  assert (Hjoin : ∀ x y,
    Forall (λ piece, is_Some (SimpleAtoi piece)) (StrSplit x) →
    Forall (λ piece, is_Some (SimpleAtoi piece)) (StrSplit y) →
    ParseVisibleDeviceList (x +:+ "," +:+ y)
    = StatusOrValue
        (Some (list_to_set (omap SimpleAtoi (StrSplit x))
               ∪ list_to_set (omap SimpleAtoi (StrSplit y))))).
  { intros x y Hx Hy.
    rewrite ParseVisibleDeviceList_succeeds.
    - by rewrite StrSplit_comma, omap_app, list_to_set_app_L.
    - apply append_comma_nonempty.
    - rewrite StrSplit_comma. by apply Forall_app. }
  split_and!.
  - by apply Hjoin.
  - rewrite !Hjoin by done. do 2 f_equal. apply (comm_L (∪)).
  - rewrite Hjoin by done. do 2 f_equal. apply (idemp_L (∪)).
Qed.

(** X4. An empty piece is no integer: a list with two commas in a row,
    or ending in a comma, or starting with one, fails with
    [InvalidArgument]. *)
Theorem ParseVisibleDeviceList_empty_piece (a b : string) :
  code (status (ParseVisibleDeviceList (a +:+ ",," +:+ b)))
  = Some error.INVALID_ARGUMENT
  ∧ code (status (ParseVisibleDeviceList (a +:+ ",")))
    = Some error.INVALID_ARGUMENT
  ∧ code (status (ParseVisibleDeviceList ("," +:+ a)))
    = Some error.INVALID_ARGUMENT.
Proof.
  assert (Hbad : ∀ x y,
    code (status (ParseVisibleDeviceList (x +:+ "," +:+ y)))
    = Some error.INVALID_ARGUMENT
    ∨ ¬ Exists (λ piece, SimpleAtoi piece = None)
          (StrSplit x ++ StrSplit y)).
  { intros x y.
    destruct (pieces_good_or_bad (StrSplit x ++ StrSplit y)) as [Hall|Hex].
    - right. intros Hex. by eapply pieces_not_both.
    - left. rewrite <- StrSplit_comma in Hex.
      destruct (ParseVisibleDeviceList_fails _ (append_comma_nonempty x y) Hex)
        as (? & _ & _ & ->). reflexivity. }
  split_and!.
  - change (a +:+ ",," +:+ b) with (a +:+ "," +:+ ("," +:+ b)).
    destruct (Hbad a ("," +:+ b)) as [H|H]; [exact H|]. destruct H.
    apply Exists_app. right. change ("," +:+ b) with ("" +:+ "," +:+ b).
    rewrite StrSplit_comma. by constructor.
  - change (a +:+ ",") with (a +:+ "," +:+ "").
    destruct (Hbad a "") as [H|H]; [exact H|]. destruct H.
    apply Exists_app. right. by constructor.
  - change ("," +:+ a) with ("" +:+ "," +:+ a).
    destruct (Hbad "" a) as [H|H]; [exact H|]. destruct H.
    by constructor.
Qed.

(** X5. A list that fails to parse still fails, with [InvalidArgument],
    when another list is put before or after it. *)
Theorem ParseVisibleDeviceList_failure_persists (a b : string) :
  ok (ParseVisibleDeviceList a) = false →
  code (status (ParseVisibleDeviceList (a +:+ "," +:+ b)))
  = Some error.INVALID_ARGUMENT
  ∧ code (status (ParseVisibleDeviceList (b +:+ "," +:+ a)))
    = Some error.INVALID_ARGUMENT.
Proof.
  intros Hfail.
  assert (Hex : Exists (λ piece, SimpleAtoi piece = None) (StrSplit a)).
  { destruct (pieces_good_or_bad (StrSplit a)) as [Hall|Hex]; [|exact Hex].
    destruct (decide (a = "")) as [->|Hne]; [by constructor|].
    by rewrite (ParseVisibleDeviceList_succeeds _ Hne Hall) in Hfail. }
  split.
  - destruct (ParseVisibleDeviceList_fails (a +:+ "," +:+ b))
      as (? & _ & _ & ->); [apply append_comma_nonempty| |reflexivity].
    rewrite StrSplit_comma. apply Exists_app. by left.
  - destruct (ParseVisibleDeviceList_fails (b +:+ "," +:+ a))
      as (? & _ & _ & ->); [apply append_comma_nonempty| |reflexivity].
    rewrite StrSplit_comma. apply Exists_app. by right.
Qed.

(** ** GetAllowedGpus *)

(** The only code of a failing [GetAllowedGpus]. *)
Lemma GetAllowedGpus_failure_code (flr : FunctionLibraryRuntime)
    (c : error.Code) (message : string) :
  GetAllowedGpus flr = StatusOrError c message →
  c = error.INVALID_ARGUMENT.
Proof.
  unfold GetAllowedGpus. destruct (config_proto flr) as [config|];
    [|discriminate].
  set (text := visible_device_list (gpu_options config)).
  destruct (decide (text = "")) as [Hempty|Hne];
    [rewrite Hempty; discriminate|].
  destruct (pieces_good_or_bad (StrSplit text)) as [Hall|Hex].
  - by rewrite (ParseVisibleDeviceList_succeeds _ Hne Hall).
  - destruct (ParseVisibleDeviceList_fails _ Hne Hex) as (? & _ & _ & ->).
    by intros [= <- _].
Qed.

(** X6. [GetAllowedGpus] fails only with [InvalidArgument], and only
    when there is a configuration whose visible-device list is not empty
    and has a piece that is no integer; the message holds that piece and
    the list. *)
Theorem GetAllowedGpus_failure (flr : FunctionLibraryRuntime)
    (c : error.Code) (message : string) :
  GetAllowedGpus flr = StatusOrError c message →
  c = error.INVALID_ARGUMENT
  ∧ ∃ config token,
      config_proto flr = Some config
      ∧ visible_device_list (gpu_options config) ≠ ""
      ∧ token ∈ StrSplit (visible_device_list (gpu_options config))
      ∧ SimpleAtoi token = None
      ∧ Contains token message
      ∧ Contains (visible_device_list (gpu_options config)) message.
Proof.
  unfold GetAllowedGpus. destruct (config_proto flr) as [config|];
    [|discriminate].
  set (text := visible_device_list (gpu_options config)).
  destruct (decide (text = "")) as [Hempty|Hne];
    [rewrite Hempty; discriminate|].
  destruct (pieces_good_or_bad (StrSplit text)) as [Hall|Hex].
  - by rewrite (ParseVisibleDeviceList_succeeds _ Hne Hall).
  - destruct (ParseVisibleDeviceList_fails _ Hne Hex)
      as (token & Hin & Hbad & ->).
    intros Heq.
    assert (message
      = StrCat ["Could not parse entry in 'visible_device_list': '";
                token; "'. visible_device_list = "; text]) as ->
      by congruence.
    split; [congruence|]. exists config, token.
    split_and!; try done; apply Contains_StrCat; set_solver.
Qed.

(** ** BuildXlaDeviceCompiler, further *)

(** X7. On the generic path, a platform id that does not resolve ends
    the build with the platform lookup's own status; nothing else is
    called and the out-parameter keeps what it held. *)
Theorem BuildXlaDeviceCompiler_platform_error (env : Env)
    (device : DeviceBase) (flr : FunctionLibraryRuntime)
    (platform_info : XlaPlatformInfo) (c : error.Code) (message : string)
    (m : Mem) :
  xla_device_metadata platform_info = None →
  device_type platform_info ≠ mkDeviceType DEVICE_TPU →
  PlatformWithId env (platform_id platform_info) = StatusOrError c message →
  BuildXlaDeviceCompiler env device flr platform_info m
  = (Returned (ErrorStatus c message),
     {| xla_device_compiler := xla_device_compiler m;
        calls := calls m ++
                 [CallPlatformWithId (platform_id platform_info)] |}).
Proof. apply BuildXlaDeviceCompiler_no_platform. Qed.

(** The generic path when the compiler lookup does not answer
    not-found: the rest of the function runs. *)
Lemma BuildXlaDeviceCompiler_generic_rest (env : Env)
    (device : DeviceBase) (flr : FunctionLibraryRuntime)
    (platform_info : XlaPlatformInfo) (platform : se.Platform) (m : Mem) :
  xla_device_metadata platform_info = None →
  device_type platform_info ≠ mkDeviceType DEVICE_TPU →
  PlatformWithId env (platform_id platform_info) = StatusOrValue platform →
  code (status (GetForPlatform env platform)) ≠ Some error.NOT_FOUND →
  BuildXlaDeviceCompiler env device flr platform_info m
  = BuildXlaDeviceCompiler_on_platform env device flr platform_info
      (persistor_config_of env) platform
      (log m [CallPlatformWithId (platform_id platform_info);
              CallGetForPlatform platform]).
Proof.
  intros Hmd Htpu Hplatform Hcompiler.
  rewrite (BuildXlaDeviceCompiler_generic _ _ _ _ _ _ Hmd Htpu Hplatform).
  cbv zeta. destruct (GetForPlatform env platform) as [|[] ?];
    try reflexivity. by destruct Hcompiler.
Qed.

(** X8. On the generic path (no metadata, not TPU) with a
    visible-device list that does not parse, the build never returns
    OK, leaves the out-parameter as it was, and calls nothing beyond the
    platform lookup and the compiler lookup: the client library and the
    op registry are not reached. When moreover the platform resolves,
    the compiler lookup does not answer not-found and the device has
    worker threads, the build returns the parser's own status, which is
    [InvalidArgument], with exactly those two lookups logged. *)
Theorem BuildXlaDeviceCompiler_visible_list_error (env : Env)
    (device : DeviceBase) (flr : FunctionLibraryRuntime)
    (platform_info : XlaPlatformInfo) (c : error.Code) (message : string)
    (m : Mem) :
  xla_device_metadata platform_info = None →
  device_type platform_info ≠ mkDeviceType DEVICE_TPU →
  GetAllowedGpus flr = StatusOrError c message →
  c = error.INVALID_ARGUMENT
  ∧ (BuildXlaDeviceCompiler env device flr platform_info m).1
    ≠ Returned OkStatus
  ∧ xla_device_compiler
      (BuildXlaDeviceCompiler env device flr platform_info m).2
    = xla_device_compiler m
  ∧ (∃ made,
       calls (BuildXlaDeviceCompiler env device flr platform_info m).2
       = calls m ++ made
       ∧ Forall (λ e, match e with
                      | CallPlatformWithId _ | CallGetForPlatform _ => True
                      | _ => False
                      end) made)
  ∧ ∀ platform threads,
      PlatformWithId env (platform_id platform_info)
      = StatusOrValue platform →
      code (status (GetForPlatform env platform)) ≠ Some error.NOT_FOUND →
      Device.tensorflow_cpu_worker_threads device = Some threads →
      BuildXlaDeviceCompiler env device flr platform_info m
      = (Returned (ErrorStatus c message),
         {| xla_device_compiler := xla_device_compiler m;
            calls := calls m ++
                     [CallPlatformWithId (platform_id platform_info);
                      CallGetForPlatform platform] |}).
Proof.
  intros Hmd Htpu Hallowed.
  split; [by apply GetAllowedGpus_failure_code in Hallowed|].
  assert (Hrest : ∀ platform,
    let r := BuildXlaDeviceCompiler_on_platform env device flr platform_info
               (persistor_config_of env) platform
               (log m [CallPlatformWithId (platform_id platform_info);
                       CallGetForPlatform platform]) in
    r.1 ≠ Returned OkStatus
    ∧ r.2 = log m [CallPlatformWithId (platform_id platform_info);
                   CallGetForPlatform platform]).
  { intros platform. cbv zeta.
    rewrite BuildXlaDeviceCompiler_on_platform_cases, Hallowed.
    by destruct (Device.tensorflow_cpu_worker_threads device). }
  assert (Hall : ∀ platform,
    let r := BuildXlaDeviceCompiler env device flr platform_info m in
    PlatformWithId env (platform_id platform_info) = StatusOrValue platform →
    r.1 ≠ Returned OkStatus
    ∧ r.2 = log m [CallPlatformWithId (platform_id platform_info);
                   CallGetForPlatform platform]).
  { intros platform r Hplatform. subst r.
    rewrite (BuildXlaDeviceCompiler_generic _ _ _ _ _ _ Hmd Htpu Hplatform).
    cbv zeta. destruct (GetForPlatform env platform) as [|[] ?];
      try apply Hrest. done. }
  destruct (PlatformWithId env (platform_id platform_info))
    as [platform|c' message'] eqn:Hplatform.
  - destruct (Hall platform eq_refl) as [Hnok Hmem].
    split_and!; [exact Hnok|by rewrite Hmem|rewrite Hmem; eexists;
      split; [reflexivity|by repeat constructor]|].
    intros ? threads [= <-] Hcompiler Hthreads.
    rewrite (BuildXlaDeviceCompiler_generic_rest
               _ _ _ _ _ _ Hmd Htpu Hplatform Hcompiler).
    rewrite BuildXlaDeviceCompiler_on_platform_cases, Hthreads, Hallowed.
    reflexivity.
  - rewrite (BuildXlaDeviceCompiler_no_platform
               _ _ _ _ _ _ _ Hmd Htpu Hplatform).
    split_and!; [done|done|eexists; split; [reflexivity
                                           |by repeat constructor]|].
    intros ? ? [=].
Qed.

(** X9. On the generic path, a failure of the client library ends the
    build with the library's own status; the op registry is not asked
    and the out-parameter keeps what it held. *)
Theorem BuildXlaDeviceCompiler_client_error (env : Env)
    (device : DeviceBase) (flr : FunctionLibraryRuntime)
    (platform_info : XlaPlatformInfo) (platform : se.Platform)
    (threads : CpuWorkerThreads) (allowed_gpus : option (gset Z))
    (c : error.Code) (message : string) (m : Mem) :
  xla_device_metadata platform_info = None →
  device_type platform_info ≠ mkDeviceType DEVICE_TPU →
  PlatformWithId env (platform_id platform_info) = StatusOrValue platform →
  code (status (GetForPlatform env platform)) ≠ Some error.NOT_FOUND →
  Device.tensorflow_cpu_worker_threads device = Some threads →
  GetAllowedGpus flr = StatusOrValue allowed_gpus →
  GetOrCreateLocalClient env
    (client_options_of platform (num_threads threads) allowed_gpus)
  = StatusOrError c message →
  BuildXlaDeviceCompiler env device flr platform_info m
  = (Returned (ErrorStatus c message),
     {| xla_device_compiler := xla_device_compiler m;
        calls := calls m ++
                 [CallPlatformWithId (platform_id platform_info);
                  CallGetForPlatform platform;
                  CallGetOrCreateLocalClient
                    (client_options_of platform (num_threads threads)
                       allowed_gpus)] |}).
Proof.
  intros Hmd Htpu Hplatform Hcompiler Hthreads Hallowed Hclient.
  rewrite (BuildXlaDeviceCompiler_generic_rest
             _ _ _ _ _ _ Hmd Htpu Hplatform Hcompiler).
  rewrite BuildXlaDeviceCompiler_on_platform_cases, Hthreads, Hallowed.
  cbv zeta. rewrite Hclient. unfold log. cbn.
  by rewrite <- (assoc_L (++)).
Qed.

(** X10. On the generic path, when the platform resolves, a compiler is
    found for it, the visible-device list parses, the client library
    gives a client and the device type has a registration, the build
    returns OK and stores a compiler whose device type is the
    registered compilation device name, whose client is that client and
    whose persistor configuration is the one built from the flags. The
    client was asked for with the resolved platform, the device's
    thread count and the parsed set of visible devices. *)
Theorem BuildXlaDeviceCompiler_generic_ok (env : Env)
    (device : DeviceBase) (flr : FunctionLibraryRuntime)
    (platform_info : XlaPlatformInfo) (platform : se.Platform)
    (compiler : xla.Compiler) (threads : CpuWorkerThreads)
    (allowed_gpus : option (gset Z)) (local_client : xla.LocalClient)
    (registration : XlaOpRegistry.DeviceRegistration) (m : Mem) :
  xla_device_metadata platform_info = None →
  device_type platform_info ≠ mkDeviceType DEVICE_TPU →
  PlatformWithId env (platform_id platform_info) = StatusOrValue platform →
  GetForPlatform env platform = StatusOrValue compiler →
  Device.tensorflow_cpu_worker_threads device = Some threads →
  GetAllowedGpus flr = StatusOrValue allowed_gpus →
  GetOrCreateLocalClient env
    {| xla.platform := Some platform; xla.number_of_replicas := 1;
       xla.intra_op_parallelism_threads := num_threads threads;
       xla.allowed_devices := allowed_gpus |}
  = StatusOrValue local_client →
  GetCompilationDevice env (type (device_type platform_info))
  = Some registration →
  ∃ built,
    BuildXlaDeviceCompiler env device flr platform_info m
    = (Returned OkStatus,
       {| xla_device_compiler := Some built;
          calls :=
            calls m ++
            [CallPlatformWithId (platform_id platform_info);
             CallGetForPlatform platform;
             CallGetOrCreateLocalClient
               {| xla.platform := Some platform;
                  xla.number_of_replicas := 1;
                  xla.intra_op_parallelism_threads := num_threads threads;
                  xla.allowed_devices := allowed_gpus |};
             CallGetCompilationDevice
               (type (device_type platform_info))] |})
    ∧ built = CreateXlaDeviceCompiler (persistor_config_of env)
                (mkDeviceType
                   (XlaOpRegistry.compilation_device_name registration))
                (Some local_client)
    ∧ XlaDeviceExecutablePersistor.device_type (persistor built)
      = mkDeviceType (XlaOpRegistry.compilation_device_name registration)
    ∧ client (compiler_client built) = Some local_client
    ∧ XlaDeviceExecutablePersistor.config (persistor built)
      = persistor_config_of env.
Proof.
  intros Hmd Htpu Hplatform Hcompiler Hthreads Hallowed Hclient Hreg.
  eexists. split; [|done].
  rewrite (BuildXlaDeviceCompiler_generic_rest
             _ _ _ _ _ _ Hmd Htpu Hplatform) by (by rewrite Hcompiler).
  rewrite BuildXlaDeviceCompiler_on_platform_cases, Hthreads, Hallowed.
  cbv zeta.
  change (client_options_of platform (num_threads threads) allowed_gpus)
    with {| xla.platform := Some platform; xla.number_of_replicas := 1;
            xla.intra_op_parallelism_threads := num_threads threads;
            xla.allowed_devices := allowed_gpus |}.
  rewrite Hclient, Hreg. unfold log. cbn. by rewrite <- (assoc_L (++)).
Qed.

(** The rest of the generic path stores a compiler exactly when it
    returns OK, never crashes on a device with worker threads, and
    makes at most its two calls, in order. *)
Lemma BuildXlaDeviceCompiler_on_platform_shape (env : Env)
    (device : DeviceBase) (flr : FunctionLibraryRuntime)
    (platform_info : XlaPlatformInfo)
    (persistor_config : XlaDeviceExecutablePersistor.Config)
    (platform : se.Platform) (m : Mem) :
  let r := BuildXlaDeviceCompiler_on_platform env device flr platform_info
             persistor_config platform m in
  match r.1 with
  | Returned OkStatus =>
      ∃ device_type local_client,
        xla_device_compiler r.2
        = Some (CreateXlaDeviceCompiler persistor_config device_type
                  local_client)
  | Returned (ErrorStatus _ _) =>
      xla_device_compiler r.2 = xla_device_compiler m
  | Crashed =>
      xla_device_compiler r.2 = xla_device_compiler m
      ∧ Device.tensorflow_cpu_worker_threads device = None
  end
  ∧ ∃ client_options,
      calls r.2 `prefix_of`
        calls m ++
        [CallGetOrCreateLocalClient client_options;
         CallGetCompilationDevice (type (device_type platform_info))].
Proof.
  cbv zeta. rewrite BuildXlaDeviceCompiler_on_platform_cases.
  destruct (Device.tensorflow_cpu_worker_threads device) as [threads|].
  2:{ split; [done|]. exists xla.LocalClientOptions_default.
      by apply prefix_app_r. }
  destruct (GetAllowedGpus flr) as [allowed_gpus|c message].
  2:{ split; [done|]. exists xla.LocalClientOptions_default.
      by apply prefix_app_r. }
  cbv zeta.
  set (client_options := client_options_of _ _ _).
  destruct (GetOrCreateLocalClient env client_options) as [client|c message].
  2:{ split; [done|]. exists client_options. cbn.
      apply prefix_app, prefix_cons, prefix_nil. }
  destruct (GetCompilationDevice env _) as [registration|].
  - split; [by eexists _, _|]. by exists client_options.
  - split; [done|]. by exists client_options.
Qed.

(** The runs of the two short paths. *)
Lemma BuildXlaDeviceCompiler_from_metadata_run (env : Env)
    (device : DeviceBase) (flr : FunctionLibraryRuntime)
    (platform_info : XlaPlatformInfo) (metadata : XlaDevice.Metadata)
    (m : Mem) :
  xla_device_metadata platform_info = Some metadata →
  BuildXlaDeviceCompiler env device flr platform_info m
  = (Returned OkStatus,
     {| xla_device_compiler :=
          Some (CreateXlaDeviceCompiler (persistor_config_of env)
                  (XlaDevice.jit_device_type metadata)
                  (XlaDevice.client metadata));
        calls := calls m |}).
Proof. intros Hmd. unfold BuildXlaDeviceCompiler. by rewrite Hmd. Qed.

Lemma BuildXlaDeviceCompiler_tpu_run (env : Env)
    (device : DeviceBase) (flr : FunctionLibraryRuntime)
    (platform_info : XlaPlatformInfo) (m : Mem) :
  xla_device_metadata platform_info = None →
  device_type platform_info = mkDeviceType DEVICE_TPU →
  BuildXlaDeviceCompiler env device flr platform_info m
  = (Returned OkStatus,
     {| xla_device_compiler :=
          Some (CreateXlaDeviceCompiler (persistor_config_of env)
                  (mkDeviceType DEVICE_TPU_XLA_JIT) None);
        calls := calls m |}).
Proof.
  intros Hmd Htpu. unfold BuildXlaDeviceCompiler. rewrite Hmd.
  destruct (decide _) as [_|Hne]; [reflexivity|by destruct Hne].
Qed.

(** X11. [BuildXlaDeviceCompiler] writes the out-parameter exactly when
    it returns OK: after OK the out-parameter holds a compiler whose
    persistor configuration is the one built from the flags; after any
    other status, or a crash, it holds what it held before. *)
Theorem BuildXlaDeviceCompiler_stores_iff_ok (env : Env)
    (device : DeviceBase) (flr : FunctionLibraryRuntime)
    (platform_info : XlaPlatformInfo) (m : Mem) :
  match (BuildXlaDeviceCompiler env device flr platform_info m).1 with
  | Returned OkStatus =>
      ∃ compiler,
        xla_device_compiler
          (BuildXlaDeviceCompiler env device flr platform_info m).2
        = Some compiler
        ∧ XlaDeviceExecutablePersistor.config (persistor compiler)
          = persistor_config_of env
  | _ =>
      xla_device_compiler
        (BuildXlaDeviceCompiler env device flr platform_info m).2
      = xla_device_compiler m
  end.
Proof.
  destruct (xla_device_metadata platform_info) as [metadata|] eqn:Hmd.
  { rewrite (BuildXlaDeviceCompiler_from_metadata_run
               _ _ _ _ _ _ Hmd). by eexists. }
  destruct (decide (device_type platform_info = mkDeviceType DEVICE_TPU))
    as [Htpu|Htpu].
  { rewrite (BuildXlaDeviceCompiler_tpu_run _ _ _ _ _ Hmd Htpu).
    by eexists. }
  destruct (PlatformWithId env (platform_id platform_info))
    as [platform|c message] eqn:Hplatform.
  2:{ by rewrite (BuildXlaDeviceCompiler_no_platform
                    _ _ _ _ _ _ _ Hmd Htpu Hplatform). }
  rewrite (BuildXlaDeviceCompiler_generic _ _ _ _ _ _ Hmd Htpu Hplatform).
  cbv zeta.
  pose proof (BuildXlaDeviceCompiler_on_platform_shape env device flr
    platform_info (persistor_config_of env) platform
    (log m [CallPlatformWithId (platform_id platform_info);
            CallGetForPlatform platform])) as [Hshape _].
  cbv zeta in Hshape.
  assert (Hrest :
    match (BuildXlaDeviceCompiler_on_platform env device flr platform_info
             (persistor_config_of env) platform
             (log m [CallPlatformWithId (platform_id platform_info);
                     CallGetForPlatform platform])).1 with
    | Returned OkStatus =>
        ∃ compiler,
          xla_device_compiler
            (BuildXlaDeviceCompiler_on_platform env device flr platform_info
               (persistor_config_of env) platform
               (log m [CallPlatformWithId (platform_id platform_info);
                       CallGetForPlatform platform])).2
          = Some compiler
          ∧ XlaDeviceExecutablePersistor.config (persistor compiler)
            = persistor_config_of env
    | _ =>
        xla_device_compiler
          (BuildXlaDeviceCompiler_on_platform env device flr platform_info
             (persistor_config_of env) platform
             (log m [CallPlatformWithId (platform_id platform_info);
                     CallGetForPlatform platform])).2
        = xla_device_compiler m
    end).
  { destruct (BuildXlaDeviceCompiler_on_platform _ _ _ _ _ _ _)
      as [[[|? ?]|] m']; cbn in *.
    - destruct Hshape as (dt & lc & ->). by eexists.
    - exact Hshape.
    - by destruct Hshape. }
  destruct (GetForPlatform env platform) as [|[] ?]; try exact Hrest.
  reflexivity.
Qed.

(** X12. For a device with worker threads, [BuildXlaDeviceCompiler]
    always returns a status: every [value()] in it is taken from a
    result already tested to be OK. *)
Theorem BuildXlaDeviceCompiler_returns (env : Env)
    (device : DeviceBase) (flr : FunctionLibraryRuntime)
    (platform_info : XlaPlatformInfo) (threads : CpuWorkerThreads)
    (m : Mem) :
  Device.tensorflow_cpu_worker_threads device = Some threads →
  ∃ status,
    (BuildXlaDeviceCompiler env device flr platform_info m).1
    = Returned status.
Proof.
  intros Hthreads.
  destruct (xla_device_metadata platform_info) as [metadata|] eqn:Hmd.
  { rewrite (BuildXlaDeviceCompiler_from_metadata_run _ _ _ _ _ _ Hmd).
    by eexists. }
  destruct (decide (device_type platform_info = mkDeviceType DEVICE_TPU))
    as [Htpu|Htpu].
  { rewrite (BuildXlaDeviceCompiler_tpu_run _ _ _ _ _ Hmd Htpu).
    by eexists. }
  destruct (PlatformWithId env (platform_id platform_info))
    as [platform|c message] eqn:Hplatform.
  2:{ rewrite (BuildXlaDeviceCompiler_no_platform
                 _ _ _ _ _ _ _ Hmd Htpu Hplatform). by eexists. }
  rewrite (BuildXlaDeviceCompiler_generic _ _ _ _ _ _ Hmd Htpu Hplatform).
  cbv zeta.
  assert (Hrest : ∃ status,
    (BuildXlaDeviceCompiler_on_platform env device flr platform_info
       (persistor_config_of env) platform
       (log m [CallPlatformWithId (platform_id platform_info);
               CallGetForPlatform platform])).1 = Returned status).
  { rewrite BuildXlaDeviceCompiler_on_platform_cases, Hthreads.
    destruct (GetAllowedGpus flr); [|by eexists]. cbv zeta.
    destruct (GetOrCreateLocalClient env _); [|by eexists].
    destruct (GetCompilationDevice env _); by eexists. }
  destruct (GetForPlatform env platform) as [|[] ?]; try exact Hrest.
  by eexists.
Qed.

(** Closes a goal that one call log is a first part of another. *)
Ltac log_prefix :=
  unfold log; cbn [calls fst snd]; rewrite <- ?(assoc_L (++));
  first [ reflexivity
        | by apply prefix_app_r
        | apply prefix_app; eexists; reflexivity ].

(** The calls of the rest of the generic path, after the two lookups. *)
Lemma BuildXlaDeviceCompiler_on_platform_calls (env : Env)
    (device : DeviceBase) (flr : FunctionLibraryRuntime)
    (platform_info : XlaPlatformInfo)
    (persistor_config : XlaDeviceExecutablePersistor.Config)
    (platform : se.Platform) (m : Mem) (first second : Event) :
  ∃ client_options,
    calls (BuildXlaDeviceCompiler_on_platform env device flr platform_info
             persistor_config platform (log m [first; second])).2
    `prefix_of`
      calls m ++
      [first; second; CallGetOrCreateLocalClient client_options;
       CallGetCompilationDevice (type (device_type platform_info))]
    ∧ calls m `prefix_of`
        calls (BuildXlaDeviceCompiler_on_platform env device flr
                 platform_info persistor_config platform
                 (log m [first; second])).2.
Proof.
  rewrite BuildXlaDeviceCompiler_on_platform_cases.
  destruct (Device.tensorflow_cpu_worker_threads device) as [threads|].
  2:{ exists xla.LocalClientOptions_default. split; log_prefix. }
  destruct (GetAllowedGpus flr) as [allowed_gpus|c message].
  2:{ exists xla.LocalClientOptions_default. split; log_prefix. }
  cbv zeta. set (client_options := client_options_of _ _ _).
  exists client_options.
  destruct (GetOrCreateLocalClient env client_options);
    [destruct (GetCompilationDevice env _)|]; split; log_prefix.
Qed.

(** X13. The calls of [BuildXlaDeviceCompiler] come after those already
    logged and are a first part of one fixed sequence: the platform
    lookup, the compiler lookup, the client library, the op registry.
    No other collaborator is called, and none twice. *)
Theorem BuildXlaDeviceCompiler_calls_in_order (env : Env)
    (device : DeviceBase) (flr : FunctionLibraryRuntime)
    (platform_info : XlaPlatformInfo) (m : Mem) :
  ∃ platform client_options,
    calls (BuildXlaDeviceCompiler env device flr platform_info m).2
    `prefix_of`
      calls m ++
      [CallPlatformWithId (platform_id platform_info);
       CallGetForPlatform platform;
       CallGetOrCreateLocalClient client_options;
       CallGetCompilationDevice (type (device_type platform_info))]
    ∧ calls m `prefix_of`
        calls (BuildXlaDeviceCompiler env device flr platform_info m).2.
Proof.
  pose (none := {| se.id := None; se.Name := "" |}).
  destruct (xla_device_metadata platform_info) as [metadata|] eqn:Hmd.
  { rewrite (BuildXlaDeviceCompiler_from_metadata_run _ _ _ _ _ _ Hmd).
    exists none, xla.LocalClientOptions_default. split; log_prefix. }
  destruct (decide (device_type platform_info = mkDeviceType DEVICE_TPU))
    as [Htpu|Htpu].
  { rewrite (BuildXlaDeviceCompiler_tpu_run _ _ _ _ _ Hmd Htpu).
    exists none, xla.LocalClientOptions_default. split; log_prefix. }
  destruct (PlatformWithId env (platform_id platform_info))
    as [platform|c message] eqn:Hplatform.
  2:{ rewrite (BuildXlaDeviceCompiler_no_platform
                 _ _ _ _ _ _ _ Hmd Htpu Hplatform).
      exists none, xla.LocalClientOptions_default. split; log_prefix. }
  rewrite (BuildXlaDeviceCompiler_generic _ _ _ _ _ _ Hmd Htpu Hplatform).
  cbv zeta. exists platform.
  destruct (GetForPlatform env platform) as [compiler|c cause] eqn:Hcompiler.
  2:{ destruct (decide (c = error.NOT_FOUND)) as [->|Hc].
      { exists xla.LocalClientOptions_default. split; log_prefix. }
      assert (Hgoal : ∃ client_options,
        calls (BuildXlaDeviceCompiler_on_platform env device flr
                 platform_info (persistor_config_of env) platform
                 (log m [CallPlatformWithId (platform_id platform_info);
                         CallGetForPlatform platform])).2
        `prefix_of`
          calls m ++
          [CallPlatformWithId (platform_id platform_info);
           CallGetForPlatform platform;
           CallGetOrCreateLocalClient client_options;
           CallGetCompilationDevice (type (device_type platform_info))]
        ∧ calls m `prefix_of`
            calls (BuildXlaDeviceCompiler_on_platform env device flr
                     platform_info (persistor_config_of env) platform
                     (log m [CallPlatformWithId (platform_id platform_info);
                             CallGetForPlatform platform])).2);
        [|by destruct c].
      apply BuildXlaDeviceCompiler_on_platform_calls. }
  apply BuildXlaDeviceCompiler_on_platform_calls.
Qed.

(** ** XlaPlatformInfoFromDevice, further *)

(** The run on an XLA device. *)
Lemma XlaPlatformInfoFromDevice_xla (env : Env) (device : DeviceBase)
    (metadata : XlaDevice.Metadata) (platform : se.Platform)
    (client : xla.LocalClient) (m : Mem) :
  Device.device_type device ≠ DEVICE_CPU →
  Device.device_type device ≠ DEVICE_GPU →
  GetMetadataFromDevice env device = StatusOrValue metadata →
  XlaDevice.platform metadata = Some platform →
  XlaDevice.client metadata = Some client →
  XlaPlatformInfoFromDevice env device m
  = (Returned {| device_type := mkDeviceType (Device.device_type device);
                 platform_id := se.id platform;
                 xla_device_metadata := Some metadata;
                 custom_allocator := shared_memory_allocator env client |},
     log m [CallGetMetadataFromDevice device]).
Proof.
  intros Hcpu Hgpu Hmd Hplatform Hclient. unfold XlaPlatformInfoFromDevice.
  do 2 (destruct (decide _); [done|]). run.
  by rewrite Hmd, Hplatform, Hclient.
Qed.

(** The run on a CPU device. *)
Lemma XlaPlatformInfoFromDevice_cpu (env : Env) (device : DeviceBase)
    (m : Mem) :
  Device.device_type device = DEVICE_CPU →
  XlaPlatformInfoFromDevice env device m
  = (Returned {| device_type := mkDeviceType DEVICE_CPU;
                 platform_id := kHostPlatformId env;
                 xla_device_metadata := None;
                 custom_allocator := None |}, m).
Proof.
  intros Hcpu. unfold XlaPlatformInfoFromDevice. rewrite Hcpu.
  by destruct (decide _).
Qed.

(** X14. A platform info that [XlaPlatformInfoFromDevice] returns has
    the device's own type; it has a custom allocator only together with
    metadata; metadata only for a device that is neither CPU nor GPU and
    for which the metadata lookup gave it, and then the platform id and
    the allocator are those of the metadata's platform and client; and
    with no metadata on such a device the platform id is null. *)
Theorem XlaPlatformInfoFromDevice_invariant (env : Env)
    (device : DeviceBase) (m m' : Mem) (platform_info : XlaPlatformInfo) :
  XlaPlatformInfoFromDevice env device m = (Returned platform_info, m') →
  device_type platform_info = mkDeviceType (Device.device_type device)
  ∧ (is_Some (custom_allocator platform_info) →
     is_Some (xla_device_metadata platform_info))
  ∧ (∀ metadata,
       xla_device_metadata platform_info = Some metadata →
       Device.device_type device ≠ DEVICE_CPU
       ∧ Device.device_type device ≠ DEVICE_GPU
       ∧ GetMetadataFromDevice env device = StatusOrValue metadata
       ∧ ∃ platform client,
           XlaDevice.platform metadata = Some platform
           ∧ XlaDevice.client metadata = Some client
           ∧ platform_id platform_info = se.id platform
           ∧ custom_allocator platform_info
             = shared_memory_allocator env client)
  ∧ (xla_device_metadata platform_info = None →
     Device.device_type device ≠ DEVICE_CPU →
     Device.device_type device ≠ DEVICE_GPU →
     platform_id platform_info = None).
Proof.
  unfold XlaPlatformInfoFromDevice.
  destruct (decide (Device.device_type device = DEVICE_CPU)) as [Hcpu|Hcpu].
  { intros [= <- <-]. cbn. split_and!; done. }
  destruct (decide (Device.device_type device = DEVICE_GPU)) as [Hgpu|Hgpu].
  { run.
    destruct (Device.tensorflow_accelerator_device_info device)
      as [[[stream|]]|]; try discriminate.
    intros [= <- <-]. cbn. split_and!; done. }
  run. destruct (GetMetadataFromDevice env device) as [metadata|c message].
  - destruct (XlaDevice.platform metadata) as [platform|] eqn:Hplatform;
      [|discriminate].
    destruct (XlaDevice.client metadata) as [client|] eqn:Hclient;
      [|discriminate].
    intros [= <- <-]. cbn. split_and!; try done.
    intros ? [= <-]. split_and!; try done. by exists platform, client.
  - intros [= <- <-]. cbn. split_and!; done.
Qed.

(** X15. For a CPU or GPU device no metadata is looked up and the
    memory stays as it was. The CPU device gets the host platform id;
    the GPU device gets the id of the platform that owns its stream;
    neither gets metadata or a custom allocator. *)
Theorem XlaPlatformInfoFromDevice_cpu_gpu (env : Env) (device : DeviceBase)
    (m : Mem) :
  Device.device_type device = DEVICE_CPU
  ∨ Device.device_type device = DEVICE_GPU →
  (XlaPlatformInfoFromDevice env device m).2 = m
  ∧ (Device.device_type device = DEVICE_CPU →
     (XlaPlatformInfoFromDevice env device m).1
     = Returned {| device_type := mkDeviceType DEVICE_CPU;
                   platform_id := kHostPlatformId env;
                   xla_device_metadata := None;
                   custom_allocator := None |})
  ∧ (∀ info bound,
       Device.device_type device = DEVICE_GPU →
       Device.tensorflow_accelerator_device_info device = Some info →
       stream info = Some bound →
       (XlaPlatformInfoFromDevice env device m).1
       = Returned {| device_type := mkDeviceType DEVICE_GPU;
                     platform_id := se.id (se.platform (se.parent bound));
                     xla_device_metadata := None;
                     custom_allocator := None |}).
Proof.
  intros Hplain. split_and!.
  - unfold XlaPlatformInfoFromDevice.
    destruct (decide (Device.device_type device = DEVICE_CPU)); [done|].
    destruct (decide (Device.device_type device = DEVICE_GPU));
      [|by destruct Hplain].
    run. by destruct (Device.tensorflow_accelerator_device_info device)
      as [[[?|]]|].
  - intros Hcpu. by rewrite (XlaPlatformInfoFromDevice_cpu _ _ _ Hcpu).
  - intros info bound Hgpu Hinfo Hstream. unfold XlaPlatformInfoFromDevice.
    rewrite Hgpu. destruct (decide (DEVICE_GPU = DEVICE_CPU)); [done|].
    destruct (decide (DEVICE_GPU = DEVICE_GPU)); [|done].
    run. rewrite Hinfo. by rewrite Hstream.
Qed.

(** ** From the device to the compiler and the allocator *)

(** X16. For an XLA device (neither CPU nor GPU, metadata found, with a
    platform and a client), the platform info made from the device
    carries that metadata and always builds: the build returns OK and
    stores a compiler whose device type is the metadata's JIT device
    type, whose client is the metadata's client and whose persistor
    configuration is the one built from the flags. The metadata lookup
    is the only call, whatever the platform manager, the registries and
    the visible-device list hold. *)
Theorem XlaDevice_build (env : Env) (device : DeviceBase)
    (flr : FunctionLibraryRuntime) (metadata : XlaDevice.Metadata)
    (platform : se.Platform) (local_client : xla.LocalClient) (m : Mem) :
  Device.device_type device ≠ DEVICE_CPU →
  Device.device_type device ≠ DEVICE_GPU →
  GetMetadataFromDevice env device = StatusOrValue metadata →
  XlaDevice.platform metadata = Some platform →
  XlaDevice.client metadata = Some local_client →
  ∃ built,
    (platform_info ← XlaPlatformInfoFromDevice env device;
     BuildXlaDeviceCompiler env device flr platform_info) m
    = (Returned OkStatus,
       {| xla_device_compiler := Some built;
          calls := calls m ++ [CallGetMetadataFromDevice device] |})
    ∧ built = CreateXlaDeviceCompiler (persistor_config_of env)
                (XlaDevice.jit_device_type metadata) (Some local_client)
    ∧ XlaDeviceExecutablePersistor.device_type (persistor built)
      = XlaDevice.jit_device_type metadata
    ∧ client (compiler_client built) = Some local_client
    ∧ XlaDeviceExecutablePersistor.config (persistor built)
      = persistor_config_of env
    ∧ ∃ platform_info,
        (XlaPlatformInfoFromDevice env device m).1 = Returned platform_info
        ∧ xla_device_metadata platform_info = Some metadata.
Proof.
  intros Hcpu Hgpu Hmd Hplatform Hclient.
  eexists. split_and!; [|reflexivity|reflexivity|reflexivity|reflexivity|].
  - unfold mbind, Run_bind.
    rewrite (XlaPlatformInfoFromDevice_xla
               _ _ _ _ _ _ Hcpu Hgpu Hmd Hplatform Hclient).
    erewrite BuildXlaDeviceCompiler_from_metadata_run by reflexivity.
    by rewrite Hclient.
  - rewrite (XlaPlatformInfoFromDevice_xla
               _ _ _ _ _ _ Hcpu Hgpu Hmd Hplatform Hclient).
    by eexists.
Qed.

(** X17. For such an XLA device whose client has a shared allocator,
    [GetAllocator] on the platform info made from the device returns
    that allocator, with or without a stream; the device's own
    allocator and the platform manager are not asked. *)
Theorem XlaDevice_allocator (env : Env) (device : DeviceBase)
    (bound : option se.Stream) (metadata : XlaDevice.Metadata)
    (platform : se.Platform) (client : xla.LocalClient)
    (allocator : se.DeviceMemoryAllocator) (m : Mem) :
  Device.device_type device ≠ DEVICE_CPU →
  Device.device_type device ≠ DEVICE_GPU →
  GetMetadataFromDevice env device = StatusOrValue metadata →
  XlaDevice.platform metadata = Some platform →
  XlaDevice.client metadata = Some client →
  shared_memory_allocator env client = Some allocator →
  (platform_info ← XlaPlatformInfoFromDevice env device;
   GetAllocator env device bound platform_info) m
  = (Returned allocator,
     {| xla_device_compiler := xla_device_compiler m;
        calls := calls m ++ [CallGetMetadataFromDevice device] |}).
Proof.
  intros Hcpu Hgpu Hmd Hplatform Hclient Hshared.
  unfold mbind, Run_bind.
  rewrite (XlaPlatformInfoFromDevice_xla
             _ _ _ _ _ _ Hcpu Hgpu Hmd Hplatform Hclient).
  unfold GetAllocator. cbn [custom_allocator]. by rewrite Hshared.
Qed.

(** X18. For a TPU device with no XLA metadata,
    [XlaPlatformInfoFromDevice] returns a platform info of type TPU
    with the null platform id, no metadata and no custom allocator, and
    the build on that platform info still returns OK: the stored
    compiler has the device type [DEVICE_TPU_XLA_JIT] and a null
    client. The metadata lookup is the only call of the two together;
    the platform manager is not asked for the null id. *)
Theorem TpuDevice_build (env : Env) (device : DeviceBase)
    (flr : FunctionLibraryRuntime) (c : error.Code) (message : string)
    (m : Mem) :
  Device.device_type device = DEVICE_TPU →
  GetMetadataFromDevice env device = StatusOrError c message →
  ∃ platform_info built,
    XlaPlatformInfoFromDevice env device m
    = (Returned platform_info,
       {| xla_device_compiler := xla_device_compiler m;
          calls := calls m ++ [CallGetMetadataFromDevice device] |})
    ∧ device_type platform_info = mkDeviceType DEVICE_TPU
    ∧ platform_id platform_info = None
    ∧ xla_device_metadata platform_info = None
    ∧ custom_allocator platform_info = None
    ∧ (platform_info ← XlaPlatformInfoFromDevice env device;
       BuildXlaDeviceCompiler env device flr platform_info) m
      = (Returned OkStatus,
         {| xla_device_compiler := Some built;
            calls := calls m ++ [CallGetMetadataFromDevice device] |})
    ∧ XlaDeviceExecutablePersistor.device_type (persistor built)
      = mkDeviceType DEVICE_TPU_XLA_JIT
    ∧ client (compiler_client built) = None
    ∧ XlaDeviceExecutablePersistor.config (persistor built)
      = persistor_config_of env.
Proof.
  intros Htpu Hmd.
  assert (Hinfo : XlaPlatformInfoFromDevice env device m
    = (Returned {| device_type := mkDeviceType DEVICE_TPU;
                   platform_id := None;
                   xla_device_metadata := None;
                   custom_allocator := None |},
       log m [CallGetMetadataFromDevice device])).
  { rewrite (XlaPlatformInfoFromDevice_other env device c message m)
      by (rewrite ?Htpu; done). by rewrite Htpu. }
  eexists _, _. split_and!; [exact Hinfo|reflexivity..| | | |].
  - unfold mbind, Run_bind. rewrite Hinfo.
    by erewrite BuildXlaDeviceCompiler_tpu_run.
  - reflexivity.
  - reflexivity.
  - reflexivity.
Qed.

(** X19. For a device that is none of CPU, GPU and TPU and has no XLA
    metadata, the platform info made from the device has the null
    platform id, and the build ends with the platform manager's status
    for the null id whenever that lookup fails: the op registry is never
    reached, registered or not. *)
Theorem OtherDevice_build (env : Env) (device : DeviceBase)
    (flr : FunctionLibraryRuntime) (c c' : error.Code)
    (message message' : string) (m : Mem) :
  Device.device_type device ≠ DEVICE_CPU →
  Device.device_type device ≠ DEVICE_GPU →
  Device.device_type device ≠ DEVICE_TPU →
  GetMetadataFromDevice env device = StatusOrError c message →
  PlatformWithId env None = StatusOrError c' message' →
  (platform_info ← XlaPlatformInfoFromDevice env device;
   BuildXlaDeviceCompiler env device flr platform_info) m
  = (Returned (ErrorStatus c' message'),
     {| xla_device_compiler := xla_device_compiler m;
        calls := calls m ++ [CallGetMetadataFromDevice device;
                             CallPlatformWithId None] |}).
Proof.
  intros Hcpu Hgpu Htpu Hmd Hplatform. unfold mbind, Run_bind.
  rewrite (XlaPlatformInfoFromDevice_other env device c message m) by done.
  erewrite BuildXlaDeviceCompiler_no_platform;
    [|reflexivity|cbn; congruence|exact Hplatform].
  unfold log. cbn. by rewrite <- (assoc_L (++)).
Qed.

(** X20. For a CPU device whose host platform id resolves,
    [GetAllocator] without a stream on the platform info made from the
    device returns the adapter around the device's allocator, built on
    the host platform. *)
Theorem CpuDevice_allocator (env : Env) (device : DeviceBase)
    (platform : se.Platform) (m : Mem) :
  Device.device_type device = DEVICE_CPU →
  PlatformWithId env (kHostPlatformId env) = StatusOrValue platform →
  (platform_info ← XlaPlatformInfoFromDevice env device;
   GetAllocator env device None platform_info) m
  = (Returned (se.TfAllocatorAdapter (Device.allocator device)
                 (inl platform)),
     {| xla_device_compiler := xla_device_compiler m;
        calls := calls m ++ [CallDeviceGetAllocator device;
                             CallPlatformWithId (kHostPlatformId env)] |}).
Proof.
  intros Hcpu Hplatform. unfold mbind, Run_bind.
  rewrite (XlaPlatformInfoFromDevice_cpu _ _ _ Hcpu).
  by erewrite GetAllocator_platform.
Qed.

(** ** GetAllocator, further *)

(** X21. [GetAllocator] ends the process exactly when there is no
    custom allocator, no stream, and the platform id does not
    resolve. *)
Theorem GetAllocator_crash_iff (env : Env) (device : DeviceBase)
    (bound : option se.Stream) (platform_info : XlaPlatformInfo)
    (m : Mem) :
  (GetAllocator env device bound platform_info m).1 = Crashed
  ↔ custom_allocator platform_info = None
    ∧ bound = None
    ∧ ok (PlatformWithId env (platform_id platform_info)) = false.
Proof.
  unfold GetAllocator.
  destruct (custom_allocator platform_info) as [allocator|];
    [by split; [|intros (? & _)]|].
  destruct bound as [bound|]; [by split; [|intros (_ & ? & _)]|]. run.
  destruct (PlatformWithId env (platform_id platform_info));
    by split; [|intros (_ & _ & ?)].
Qed.

(** X22. With no custom allocator, [GetAllocator] always wraps the
    allocator that the device hands out. With a stream the adapter is
    built on the stream and the platform manager is not asked, so the
    platform id need not resolve; with no stream and a platform id that
    resolves the adapter is built on that platform. *)
Theorem GetAllocator_adapter (env : Env) (device : DeviceBase)
    (bound : option se.Stream) (platform_info : XlaPlatformInfo)
    (m : Mem) :
  custom_allocator platform_info = None →
  match bound with
  | Some stream =>
      GetAllocator env device bound platform_info m
      = (Returned (se.TfAllocatorAdapter (Device.allocator device)
                     (inr stream)),
         {| xla_device_compiler := xla_device_compiler m;
            calls := calls m ++ [CallDeviceGetAllocator device] |})
  | None =>
      ∀ platform,
        PlatformWithId env (platform_id platform_info)
        = StatusOrValue platform →
        GetAllocator env device bound platform_info m
        = (Returned (se.TfAllocatorAdapter (Device.allocator device)
                       (inl platform)),
           {| xla_device_compiler := xla_device_compiler m;
              calls := calls m ++
                       [CallDeviceGetAllocator device;
                        CallPlatformWithId (platform_id platform_info)] |})
  end.
Proof.
  intros Hcustom. destruct bound as [stream|].
  - by apply GetAllocator_stream.
  - intros platform Hplatform. by apply GetAllocator_platform.
Qed.

(** * The further properties on the sample processes *)

Lemma ParseVisibleDeviceList_never_empty_set_witness :
  ∃ n, n ∈ ({[3]} : gset Z).
Proof.
  apply (ParseVisibleDeviceList_never_empty_set "3" {[3]}).
  vm_compute. reflexivity.
Defined.

Lemma ParseVisibleDeviceList_join_witness :
  ParseVisibleDeviceList ("0,1" +:+ "," +:+ "1,2")
  = StatusOrValue (Some ({[0; 1]} ∪ {[1; 2]}))
  ∧ ParseVisibleDeviceList ("1,2" +:+ "," +:+ "0,1")
    = ParseVisibleDeviceList ("0,1" +:+ "," +:+ "1,2")
  ∧ ParseVisibleDeviceList ("0,1" +:+ "," +:+ "0,1")
    = StatusOrValue (Some {[0; 1]}).
Proof.
  apply (ParseVisibleDeviceList_join "0,1" "1,2" {[0; 1]} {[1; 2]});
    vm_compute; reflexivity.
Defined.

Lemma ParseVisibleDeviceList_failure_persists_witness :
  code (status (ParseVisibleDeviceList ("x" +:+ "," +:+ "0")))
  = Some error.INVALID_ARGUMENT
  ∧ code (status (ParseVisibleDeviceList ("0" +:+ "," +:+ "x")))
    = Some error.INVALID_ARGUMENT.
Proof.
  apply (ParseVisibleDeviceList_failure_persists "x" "0"). reflexivity.
Defined.

Lemma GetAllowedGpus_failure_witness :
  error.INVALID_ARGUMENT = error.INVALID_ARGUMENT
  ∧ ∃ config token,
      config_proto (Sample.flr "0,x") = Some config
      ∧ visible_device_list (gpu_options config) ≠ ""
      ∧ token ∈ StrSplit (visible_device_list (gpu_options config))
      ∧ SimpleAtoi token = None
      ∧ Contains token
          "Could not parse entry in 'visible_device_list': 'x'. visible_device_list = 0,x"
      ∧ Contains (visible_device_list (gpu_options config))
          "Could not parse entry in 'visible_device_list': 'x'. visible_device_list = 0,x".
Proof.
  apply (GetAllowedGpus_failure (Sample.flr "0,x") error.INVALID_ARGUMENT
           "Could not parse entry in 'visible_device_list': 'x'. visible_device_list = 0,x").
  reflexivity.
Defined.

Lemma BuildXlaDeviceCompiler_platform_error_witness :
  BuildXlaDeviceCompiler Sample.env (Sample.device "FPGA") (Sample.flr "")
    (Sample.info "FPGA" None) Sample.start
  = (Returned
       (ErrorStatus error.NOT_FOUND
          "could not find registered platform with id"),
     {| xla_device_compiler := None; calls := [CallPlatformWithId None] |}).
Proof.
  apply (BuildXlaDeviceCompiler_platform_error Sample.env
           (Sample.device "FPGA") (Sample.flr "") (Sample.info "FPGA" None)
           error.NOT_FOUND "could not find registered platform with id"
           Sample.start);
    [reflexivity|discriminate|reflexivity].
Defined.

Lemma BuildXlaDeviceCompiler_visible_list_error_witness :
  BuildXlaDeviceCompiler Sample.env (Sample.device "CPU") (Sample.flr "0,x")
    (Sample.info "CPU" (Some 1%nat)) Sample.start
  = (Returned
       (ErrorStatus error.INVALID_ARGUMENT
          "Could not parse entry in 'visible_device_list': 'x'. visible_device_list = 0,x"),
     {| xla_device_compiler := None;
        calls := [CallPlatformWithId (Some 1%nat);
                  CallGetForPlatform Sample.host] |})
  ∧ (BuildXlaDeviceCompiler Sample.env (Sample.device "GPU")
       (Sample.flr "0,x") (Sample.info "GPU" (Some 2%nat)) Sample.start).1
    ≠ Returned OkStatus.
Proof.
  split.
  - destruct (BuildXlaDeviceCompiler_visible_list_error Sample.env
                (Sample.device "CPU") (Sample.flr "0,x")
                (Sample.info "CPU" (Some 1%nat)) error.INVALID_ARGUMENT
                "Could not parse entry in 'visible_device_list': 'x'. visible_device_list = 0,x"
                Sample.start) as (_ & _ & _ & _ & Hrun);
      [reflexivity|discriminate|reflexivity|].
    apply (Hrun Sample.host {| num_threads := 8 |});
      [reflexivity|discriminate|reflexivity].
  - destruct (BuildXlaDeviceCompiler_visible_list_error Sample.env
                (Sample.device "GPU") (Sample.flr "0,x")
                (Sample.info "GPU" (Some 2%nat)) error.INVALID_ARGUMENT
                "Could not parse entry in 'visible_device_list': 'x'. visible_device_list = 0,x"
                Sample.start) as (_ & Hnok & _);
      [reflexivity|discriminate|reflexivity|].
    exact Hnok.
Defined.

Lemma BuildXlaDeviceCompiler_client_error_witness :
  BuildXlaDeviceCompiler Sample2.env (Sample.device "GPU") (Sample.flr "")
    (Sample.info "GPU" (Some 2%nat)) Sample.start
  = (Returned (ErrorStatus error.INTERNAL "no supported devices found"),
     {| xla_device_compiler := None;
        calls := [CallPlatformWithId (Some 2%nat);
                  CallGetForPlatform Sample.cuda;
                  CallGetOrCreateLocalClient
                    (client_options_of Sample.cuda 8 None)] |}).
Proof.
  apply (BuildXlaDeviceCompiler_client_error Sample2.env
           (Sample.device "GPU") (Sample.flr "")
           (Sample.info "GPU" (Some 2%nat)) Sample.cuda
           {| num_threads := 8 |} None error.INTERNAL
           "no supported devices found" Sample.start);
    [reflexivity|discriminate|reflexivity|discriminate|reflexivity
    |reflexivity|reflexivity].
Defined.

Lemma BuildXlaDeviceCompiler_generic_ok_witness :
  ∃ built,
    BuildXlaDeviceCompiler Sample.env (Sample.device "CPU")
      (Sample.flr "0,1") (Sample.info "CPU" (Some 1%nat)) Sample.start
    = (Returned OkStatus,
       {| xla_device_compiler := Some built;
          calls :=
            [CallPlatformWithId (Some 1%nat);
             CallGetForPlatform Sample.host;
             CallGetOrCreateLocalClient
               {| xla.platform := Some Sample.host;
                  xla.number_of_replicas := 1;
                  xla.intra_op_parallelism_threads := 8;
                  xla.allowed_devices := Some {[0; 1]} |};
             CallGetCompilationDevice "CPU"] |})
    ∧ built = CreateXlaDeviceCompiler (persistor_config_of Sample.env)
                (mkDeviceType "XLA_CPU_JIT") (Some 1%nat)
    ∧ XlaDeviceExecutablePersistor.device_type (persistor built)
      = mkDeviceType "XLA_CPU_JIT"
    ∧ client (compiler_client built) = Some 1%nat
    ∧ XlaDeviceExecutablePersistor.config (persistor built)
      = persistor_config_of Sample.env.
Proof.
  apply (BuildXlaDeviceCompiler_generic_ok Sample.env (Sample.device "CPU")
           (Sample.flr "0,1") (Sample.info "CPU" (Some 1%nat)) Sample.host
           1%nat {| num_threads := 8 |} (Some {[0; 1]}) 1%nat
           {| XlaOpRegistry.compilation_device_name := "XLA_CPU_JIT" |}
           Sample.start);
    [reflexivity|discriminate|reflexivity|reflexivity|reflexivity
    |vm_compute; reflexivity|reflexivity|reflexivity].
Defined.

Lemma BuildXlaDeviceCompiler_returns_witness :
  ∃ status,
    (BuildXlaDeviceCompiler Sample.env (Sample.device "GPU") (Sample.flr "")
       (Sample.info "GPU" (Some 2%nat)) Sample.start).1
    = Returned status.
Proof.
  apply (BuildXlaDeviceCompiler_returns Sample.env (Sample.device "GPU")
           (Sample.flr "") (Sample.info "GPU" (Some 2%nat))
           {| num_threads := 8 |} Sample.start).
  reflexivity.
Defined.

Lemma XlaPlatformInfoFromDevice_invariant_witness :
  device_type Sample.xla_info
  = mkDeviceType (Device.device_type (Sample.device "XLA_CPU"))
  ∧ is_Some (xla_device_metadata Sample.xla_info)
  ∧ platform_id Sample.xla_info = se.id Sample.host.
Proof.
  destruct (XlaPlatformInfoFromDevice_invariant Sample2.env
              (Sample.device "XLA_CPU") Sample.start
              (log Sample.start
                 [CallGetMetadataFromDevice (Sample.device "XLA_CPU")])
              Sample.xla_info) as (Htype & Hallocator & _ & _);
    [reflexivity|].
  split; [exact Htype|]. split; [|reflexivity].
  apply Hallocator. by eexists.
Defined.

Lemma XlaPlatformInfoFromDevice_cpu_gpu_witness :
  (XlaPlatformInfoFromDevice Sample.env Sample2.gpu_device Sample.start).2
  = Sample.start
  ∧ (XlaPlatformInfoFromDevice Sample.env Sample2.gpu_device Sample.start).1
    = Returned (Sample.info "GPU" (Some 2%nat)).
Proof.
  destruct (XlaPlatformInfoFromDevice_cpu_gpu Sample.env Sample2.gpu_device
              Sample.start) as (Hmem & _ & Hgpu); [by right|].
  split; [exact Hmem|].
  apply (Hgpu {| stream := Some Sample.stream |} Sample.stream);
    reflexivity.
Defined.

Lemma XlaDevice_build_witness :
  ∃ built,
    (platform_info ←
       XlaPlatformInfoFromDevice Sample2.env (Sample.device "XLA_CPU");
     BuildXlaDeviceCompiler Sample2.env (Sample.device "XLA_CPU")
       (Sample.flr "0,x") platform_info) Sample.start
    = (Returned OkStatus,
       {| xla_device_compiler := Some built;
          calls := [CallGetMetadataFromDevice (Sample.device "XLA_CPU")] |})
    ∧ XlaDeviceExecutablePersistor.device_type (persistor built)
      = mkDeviceType "XLA_CPU_JIT"
    ∧ client (compiler_client built) = Some 9%nat.
Proof.
  destruct (XlaDevice_build Sample2.env (Sample.device "XLA_CPU")
              (Sample.flr "0,x") Sample.metadata Sample.host 9%nat
              Sample.start)
    as (built & Hrun & _ & Htype & Hclient & _);
    [discriminate|discriminate|reflexivity|reflexivity|reflexivity|].
  exists built. split; [exact Hrun|]. split; [exact Htype|exact Hclient].
Defined.

Lemma XlaDevice_allocator_witness :
  (platform_info ←
     XlaPlatformInfoFromDevice Sample2.env (Sample.device "XLA_CPU");
   GetAllocator Sample2.env (Sample.device "XLA_CPU") None platform_info)
    Sample.start
  = (Returned (se.BackendAllocator 9%nat),
     {| xla_device_compiler := None;
        calls := [CallGetMetadataFromDevice (Sample.device "XLA_CPU")] |}).
Proof.
  apply (XlaDevice_allocator Sample2.env (Sample.device "XLA_CPU") None
           Sample.metadata Sample.host 9%nat (se.BackendAllocator 9%nat)
           Sample.start);
    [discriminate|discriminate|reflexivity|reflexivity|reflexivity
    |reflexivity].
Defined.

Lemma TpuDevice_build_witness :
  ∃ platform_info built,
    XlaPlatformInfoFromDevice Sample.env (Sample.device "TPU") Sample.start
    = (Returned platform_info,
       {| xla_device_compiler := None;
          calls := [CallGetMetadataFromDevice (Sample.device "TPU")] |})
    ∧ platform_id platform_info = None
    ∧ (platform_info ←
         XlaPlatformInfoFromDevice Sample.env (Sample.device "TPU");
       BuildXlaDeviceCompiler Sample.env (Sample.device "TPU")
         (Sample.flr "") platform_info) Sample.start
      = (Returned OkStatus,
         {| xla_device_compiler := Some built;
            calls := [CallGetMetadataFromDevice (Sample.device "TPU")] |})
    ∧ XlaDeviceExecutablePersistor.device_type (persistor built)
      = mkDeviceType DEVICE_TPU_XLA_JIT
    ∧ client (compiler_client built) = None.
Proof.
  destruct (TpuDevice_build Sample.env (Sample.device "TPU") (Sample.flr "")
              error.INTERNAL "Cannot get XLA metadata from non-XLA device"
              Sample.start)
    as (platform_info & built & Hinfo & _ & Hid & _ & _ & Hrun & Htype
        & Hclient & _); [reflexivity|reflexivity|].
  exists platform_info, built.
  split; [exact Hinfo|]. split; [exact Hid|]. split; [exact Hrun|].
  split; [exact Htype|exact Hclient].
Defined.

Lemma OtherDevice_build_witness :
  (platform_info ←
     XlaPlatformInfoFromDevice Sample.env (Sample.device "FPGA");
   BuildXlaDeviceCompiler Sample.env (Sample.device "FPGA") (Sample.flr "")
     platform_info) Sample.start
  = (Returned
       (ErrorStatus error.NOT_FOUND
          "could not find registered platform with id"),
     {| xla_device_compiler := None;
        calls := [CallGetMetadataFromDevice (Sample.device "FPGA");
                  CallPlatformWithId None] |}).
Proof.
  apply (OtherDevice_build Sample.env (Sample.device "FPGA") (Sample.flr "")
           error.INTERNAL error.NOT_FOUND
           "Cannot get XLA metadata from non-XLA device"
           "could not find registered platform with id" Sample.start);
    [discriminate|discriminate|discriminate|reflexivity|reflexivity].
Defined.

Lemma CpuDevice_allocator_witness :
  (platform_info ←
     XlaPlatformInfoFromDevice Sample.env (Sample.device "CPU");
   GetAllocator Sample.env (Sample.device "CPU") None platform_info)
    Sample.start
  = (Returned (se.TfAllocatorAdapter (Some 5%nat) (inl Sample.host)),
     {| xla_device_compiler := None;
        calls := [CallDeviceGetAllocator (Sample.device "CPU");
                  CallPlatformWithId (Some 1%nat)] |}).
Proof.
  apply (CpuDevice_allocator Sample.env (Sample.device "CPU") Sample.host
           Sample.start); reflexivity.
Defined.

Lemma GetAllocator_adapter_witness :
  GetAllocator Sample.env (Sample.device "TPU") (Some Sample.stream)
    (Sample.info "TPU" None) Sample.start
  = (Returned (se.TfAllocatorAdapter (Some 5%nat) (inr Sample.stream)),
     {| xla_device_compiler := None;
        calls := [CallDeviceGetAllocator (Sample.device "TPU")] |}).
Proof.
  apply (GetAllocator_adapter Sample.env (Sample.device "TPU")
           (Some Sample.stream) (Sample.info "TPU" None) Sample.start).
  reflexivity.
Defined.
